(** * Foodgram backend: a shallow embedding of the recipe API

    The Django models of [api/models.py] become records, the database a
    record of tables (lists of rows), and each view or serializer method a
    function from the store (and the request data) to a response and the
    new store. *)

From Stdlib Require Import List String Ascii Arith Lia Bool ZArith.
Import ListNotations.

(* ------------------------------------------------------------------ *)
(** ** Data model ([api/models.py], [users/models.py]) *)

Record Ingredient := mkIngredient {
  ingredient_id : nat;
  ingredient_name : string;
  measurement_unit : string
}.

Record Tag := mkTag {
  tag_id : nat;
  tag_name : string;
  tag_slug : string
}.

(** [cooking_time] is a PositiveSmallIntegerField. *)
Record Recipe := mkRecipe {
  recipe_id : nat;
  recipe_author : nat;
  recipe_name : string;
  recipe_text : string;
  cooking_time : nat
}.

(** The through model of [Recipe.ingredients]; [amount] is a
    PositiveSmallIntegerField. *)
Record IngredientInRecipe := mkIngredientInRecipe {
  iir_ingredient : nat;
  iir_recipe : nat;
  amount : nat
}.

(** The tables.  [subscriptions] holds (user, author) pairs,
    [shopping_cart] and [favorites] hold (user, recipe) pairs and
    [recipe_tags] is the auto-created m2m table (recipe, tag). *)
Record Store := mkStore {
  users : list nat;
  ingredients : list Ingredient;
  tags : list Tag;
  recipes : list Recipe;
  recipe_tags : list (nat * nat);
  ingredient_in_recipe : list IngredientInRecipe;
  subscriptions : list (nat * nat);
  shopping_cart : list (nat * nat);
  favorites : list (nat * nat)
}.

Definition set_recipes (db : Store) (rs : list Recipe) : Store :=
  mkStore (users db) (ingredients db) (tags db) rs (recipe_tags db)
    (ingredient_in_recipe db) (subscriptions db) (shopping_cart db)
    (favorites db).

Definition set_recipe_tags (db : Store) (rt : list (nat * nat)) : Store :=
  mkStore (users db) (ingredients db) (tags db) (recipes db) rt
    (ingredient_in_recipe db) (subscriptions db) (shopping_cart db)
    (favorites db).

Definition set_ingredient_in_recipe (db : Store)
    (rows : list IngredientInRecipe) : Store :=
  mkStore (users db) (ingredients db) (tags db) (recipes db) (recipe_tags db)
    rows (subscriptions db) (shopping_cart db) (favorites db).

Definition set_subscriptions (db : Store) (s : list (nat * nat)) : Store :=
  mkStore (users db) (ingredients db) (tags db) (recipes db) (recipe_tags db)
    (ingredient_in_recipe db) s (shopping_cart db) (favorites db).

Definition set_shopping_cart (db : Store) (s : list (nat * nat)) : Store :=
  mkStore (users db) (ingredients db) (tags db) (recipes db) (recipe_tags db)
    (ingredient_in_recipe db) (subscriptions db) s (favorites db).

Definition set_favorites (db : Store) (s : list (nat * nat)) : Store :=
  mkStore (users db) (ingredients db) (tags db) (recipes db) (recipe_tags db)
    (ingredient_in_recipe db) (subscriptions db) (shopping_cart db) s.

Definition pair_eqb (p q : nat * nat) : bool :=
  Nat.eqb (fst p) (fst q) && Nat.eqb (snd p) (snd q).

(* ------------------------------------------------------------------ *)
(** ** Python's [str] of a non-negative int *)

Fixpoint digits_of (fuel n : nat) (acc : string) : string :=
  match fuel with
  | 0 => acc
  | S f =>
      let acc' := String (ascii_of_nat (48 + n mod 10)) acc in
      if n <? 10 then acc' else digits_of f (n / 10) acc'
  end.

Definition string_of_nat (n : nat) : string := digits_of (S n) n EmptyString.

Definition newline : string := String (ascii_of_nat 10) EmptyString.

(* ------------------------------------------------------------------ *)
(** ** [RecipeViewSet.download_shopping_cart] ([api/views.py])

    The query
    [IngredientInRecipe.objects.filter(recipe__in=...).values(
       'ingredient__name', 'ingredient__measurement_unit')
     .annotate(amount_total=Sum('amount'))]
    joins each selected row with its ingredient and groups the rows by
    the (name, unit) pair of the [values] call, summing [amount].  SQL
    gives the groups in no particular order; [group_sum] lists them in
    one order, and the statements below do not depend on it. *)

Definition key := (string * string)%type.

Definition key_eq_dec (k1 k2 : key) : {k1 = k2} + {k1 <> k2}.
Proof. decide equality; apply string_dec. Defined.

(** [user.shopping_cart.values_list('recipe', flat=True)] *)
Definition cart_recipe_ids (db : Store) (u : nat) : list nat :=
  map snd (filter (fun p => Nat.eqb (fst p) u) (shopping_cart db)).

Definition find_ingredient (db : Store) (i : nat) : option Ingredient :=
  find (fun g => Nat.eqb (ingredient_id g) i) (ingredients db).

(** The joined rows [((ingredient__name, ingredient__measurement_unit),
    amount)] of the IngredientInRecipe rows whose recipe is in the cart. *)
Definition cart_rows (db : Store) (u : nat) : list (key * nat) :=
  flat_map (fun r =>
    if existsb (Nat.eqb (iir_recipe r)) (cart_recipe_ids db u) then
      match find_ingredient db (iir_ingredient r) with
      | Some g => [((ingredient_name g, measurement_unit g), amount r)]
      | None => []
      end
    else []) (ingredient_in_recipe db).

(** GROUP BY key with SUM: add one row to the groups. *)
Fixpoint add_group (k : key) (a : nat) (gs : list (key * nat))
    : list (key * nat) :=
  match gs with
  | [] => [(k, a)]
  | (k', t) :: gs' =>
      if key_eq_dec k k' then (k', t + a) :: gs'
      else (k', t) :: add_group k a gs'
  end.

Fixpoint group_sum (rows : list (key * nat)) : list (key * nat) :=
  match rows with
  | [] => []
  | (k, a) :: rows' => add_group k a (group_sum rows')
  end.

(** [f"{name} ({unit}) - {amount_total}\n"] *)
Definition shopping_line (g : key * nat) : string :=
  let '((name, unit), total) := g in
  name ++ " (" ++ unit ++ ") - " ++ string_of_nat total ++ newline.

Definition download_shopping_cart (db : Store) (u : nat) : string :=
  String.concat EmptyString (map shopping_line (group_sum (cart_rows db u))).

(** The total of the amounts of the rows with key [k]. *)
Definition sum_amounts (k : key) (rows : list (key * nat)) : nat :=
  list_sum (map snd (filter (fun r => if key_eq_dec (fst r) k then true
                                     else false) rows)).

(* ------------------------------------------------------------------ *)
(** ** Responses

    [ServerError500] is an exception no handler catches. *)

Inductive Response :=
| Ok200
| Created201
| NoContent204
| BadRequest400 (errors : list string)
| Forbidden403
| NotFound404
| ServerError500.

(* ------------------------------------------------------------------ *)
(** ** Rows of the tables *)

Definition recipe_exists (db : Store) (rid : nat) : bool :=
  existsb (fun r => Nat.eqb (recipe_id r) rid) (recipes db).

Definition user_exists (db : Store) (u : nat) : bool :=
  existsb (Nat.eqb u) (users db).

(** [Model.objects.filter(user=..., target=...).exists()] *)
Definition row_exists (rel : list (nat * nat)) (u t : nat) : bool :=
  existsb (pair_eqb (u, t)) rel.

(** [Model.objects.filter(user=..., target=...).delete()] *)
Definition delete_rows (rel : list (nat * nat)) (u t : nat) : list (nat * nat) :=
  filter (fun p => negb (pair_eqb (u, t) p)) rel.


(* ------------------------------------------------------------------ *)
(** ** The recipe list: [RecipeViewSet.get_queryset] ([api/views.py])
    and [RecipeFilter] ([api/filters.py])

    The query parameters as [QueryDict.get] (the last value of a key) and
    [QueryDict.getlist] give them.  The [author] value is given by what
    the NumberFilter's form field makes of it: an integer, or a value
    that is not a number (a form error); an absent or empty value is
    [None]. *)

Inductive AuthorParam := AuthorNumber (n : nat) | AuthorNotNumber.

Record ListQuery := mkListQuery {
  q_is_in_shopping_cart : option string;
  q_is_favorited : option string;
  q_author : option AuthorParam;
  q_tags : list string
}.

(** [user.is_authenticated]: [None] is the anonymous user. *)
Definition Caller := option nat.

(** [RecipeViewSet.get_queryset] *)
Definition get_queryset (db : Store) (user : Caller) (q : ListQuery)
    : list Recipe :=
  let qs := recipes db in
  let qs := match q_is_in_shopping_cart q, user with
            | Some v, Some u =>
                filter (fun r => Bool.eqb (row_exists (shopping_cart db) u (recipe_id r))
                                          (String.eqb v "1"%string)) qs
            | _, _ => qs
            end in
  match q_is_favorited q, user with
  | Some v, Some u =>
      filter (fun r => Bool.eqb (row_exists (favorites db) u (recipe_id r))
                                (String.eqb v "1"%string)) qs
  | _, _ => qs
  end.

(** [str.lower] on ASCII letters. *)
Definition lower_ascii (c : ascii) : ascii :=
  let n := nat_of_ascii c in
  if (65 <=? n) && (n <=? 90) then ascii_of_nat (n + 32) else c.

Fixpoint lower (s : string) : string :=
  match s with
  | EmptyString => EmptyString
  | String c s' => String (lower_ascii c) (lower s')
  end.

(** django-filter's [BooleanWidget.value_from_datadict]: unknown values
    become [None], which the NullBooleanField accepts. *)
Definition boolean_widget (v : option string) : option bool :=
  match v with
  | None => None
  | Some s =>
      let s' := lower s in
      if String.eqb s' "1" || String.eqb s' "true" then Some true
      else if String.eqb s' "0" || String.eqb s' "false" then Some false
      else None
  end%string.

(** [RecipeFilter.filter_is_favorited] and
    [RecipeFilter.filter_is_in_shopping_cart] ([int(value)] of the bool);
    the method is not called on an empty value. *)
Definition filter_by_relation (rel : list (nat * nat)) (user : Caller)
    (value : option bool) (qs : list Recipe) : list Recipe :=
  match value with
  | None => qs
  | Some b =>
      match user with
      | Some u => if b then filter (fun r => row_exists rel u (recipe_id r)) qs
                  else qs
      | None => qs
      end
  end.

(** [RecipeFilter.author] *)
Definition filter_author (a : option AuthorParam) (qs : list Recipe)
    : list Recipe :=
  match a with
  | Some (AuthorNumber n) => filter (fun r => Nat.eqb (recipe_author r) n) qs
  | _ => qs
  end.

Definition slug_exists (db : Store) (s : string) : bool :=
  existsb (fun t => String.eqb (tag_slug t) s) (tags db).

(** [tags__slug = s] for a recipe: one of its links names a tag with
    that slug. *)
Definition recipe_has_slug (db : Store) (r : Recipe) (s : string) : bool :=
  existsb (fun p => Nat.eqb (fst p) (recipe_id r) &&
             existsb (fun t => Nat.eqb (tag_id t) (snd p) &&
                                String.eqb (tag_slug t) s) (tags db))
    (recipe_tags db).

(** [RecipeFilter.tags], a ModelMultipleChoiceFilter ([conjoined=False]):
    an empty list filters nothing, otherwise the predicates
    [Q(tags__slug=v)] are or-ed, then [distinct()]. *)
Definition filter_tags (db : Store) (ts : list string) (qs : list Recipe)
    : list Recipe :=
  match ts with
  | [] => qs
  | _ => filter (fun r => existsb (recipe_has_slug db r) ts) qs
  end.

(** The filterset's form: the author must be a number and every tag
    slug a choice of [Tag.objects.all()] (to_field_name='slug'). *)
Definition filterset_valid (db : Store) (q : ListQuery) : bool :=
  match q_author q with
  | Some AuthorNotNumber => false
  | _ => true
  end && forallb (slug_exists db) (q_tags q).

(** [filter_queryset(get_queryset())] of [RecipeViewSet]: [None] is the
    400 of an invalid filterset ([DjangoFilterBackend] raises its errors). *)
Definition filtered_recipes (db : Store) (user : Caller) (q : ListQuery)
    : option (list Recipe) :=
  if filterset_valid db q then
    let qs := get_queryset db user q in
    let qs := filter_by_relation (favorites db) user
                (boolean_widget (q_is_favorited q)) qs in
    let qs := filter_by_relation (shopping_cart db) user
                (boolean_widget (q_is_in_shopping_cart q)) qs in
    let qs := filter_author (q_author q) qs in
    let qs := filter_tags db (q_tags q) qs in
    Some qs
  else None.

(** [GET /recipes/]: [None] is the 400 of an invalid filterset; otherwise
    the ids of the listed recipes. *)
Definition recipe_list (db : Store) (user : Caller) (q : ListQuery)
    : option (list nat) :=
  option_map (map recipe_id) (filtered_recipes db user q).

(** The filterset's form errors, by parameter. *)
Definition filterset_errors (db : Store) (q : ListQuery) : list string :=
  match q_author q with
  | Some AuthorNotNumber => ["author"%string]
  | _ => []
  end ++ (if forallb (slug_exists db) (q_tags q) then [] else ["tags"%string]).

(** A request without query parameters. *)
Definition no_query : ListQuery := mkListQuery None None None [].

(** [GenericAPIView.get_object] of [RecipeViewSet]: the queryset of the
    list, filtered with the request's query parameters, then
    [get_object_or_404(queryset, pk=...)]. *)
Definition get_recipe_object (db : Store) (user : Caller) (q : ListQuery)
    (rid : nat) : Response + Recipe :=
  match filtered_recipes db user q with
  | None => inl (BadRequest400 (filterset_errors db q))
  | Some qs =>
      match find (fun r => Nat.eqb (recipe_id r) rid) qs with
      | Some r => inr r
      | None => inl NotFound404
      end
  end.

(** The same query without [is_favorited] and [is_in_shopping_cart]. *)
Definition without_user_flags (q : ListQuery) : ListQuery :=
  mkListQuery None None (q_author q) (q_tags q).

Definition tags_query (ts : list string) : ListQuery :=
  mkListQuery None None None ts.

(* ------------------------------------------------------------------ *)
(** ** [RecipeWriteSerializer] ([api/serializers.py])

    [request.data] of a recipe write: each key may be absent ([None]).
    Strings are the UTF-8 encodings of the JSON strings. *)

Record IngredientEntry := mkIngredientEntry {
  entry_id : nat;
  entry_amount : Z
}.

(** The [image] value: the JSON string, and whether Django's
    [forms.ImageField] (Pillow's check of the content and the check of
    the file extension) accepts the file [Base64ImageField] builds from
    it.  Only this second part, the work of Pillow, is not embedded. *)
Record ImageInput := mkImageInput {
  image_value : string;
  image_file_valid : bool
}.

Record RecipePayload := mkRecipePayload {
  p_ingredients : option (list IngredientEntry);
  p_tags : option (list nat);
  p_image : option ImageInput;
  p_name : option string;
  p_text : option string;
  p_cooking_time : option Z
}.

Definition MIN_VALUE : Z := 1.
Definition MAX_VALUE : Z := 32000.

(** [serializers.IntegerField(min_value=MIN_VALUE, max_value=MAX_VALUE)] *)
Definition integer_field_ok (v : Z) : bool :=
  (MIN_VALUE <=? v)%Z && (v <=? MAX_VALUE)%Z.

Definition ingredient_exists (db : Store) (i : nat) : bool :=
  existsb (fun g => Nat.eqb (ingredient_id g) i) (ingredients db).

Definition tag_exists (db : Store) (t : nat) : bool :=
  existsb (fun g => Nat.eqb (tag_id g) t) (tags db).

(** [IngredientWriteSerializer]: the PrimaryKeyRelatedField [id] and the
    bounded [amount] ([validate_amount] repeats the lower bound). *)
Definition ingredient_entry_ok (db : Store) (e : IngredientEntry) : bool :=
  ingredient_exists db (entry_id e) && integer_field_ok (entry_amount e)
  && negb (entry_amount e <? MIN_VALUE)%Z.

(** The loop of [validate_ingredients] over [ingredients_set]: [true]
    when an id is met a second time. *)
Fixpoint seen_twice (seen : list nat) (l : list nat) : bool :=
  match l with
  | [] => false
  | i :: l' => if existsb (Nat.eqb i) seen then true else seen_twice (i :: seen) l'
  end.

(** [RecipeWriteSerializer.validate_ingredients] *)
Definition validate_ingredients (value : list IngredientEntry) : bool :=
  match value with
  | [] => false
  | _ => negb (seen_twice [] (map entry_id value))
  end.

(** [RecipeWriteSerializer.validate_tags]: [len(set(value)) != len(value)]
    is a repeated id. *)
Definition validate_tags (value : list nat) : bool :=
  match value with
  | [] => false
  | _ => negb (seen_twice [] value)
  end.

(** The run of one declared field: absent and required gives an error
    unless the update is partial; present gives the field's checks. *)
Definition field_errors {A} (partial : bool) (fname : string) (v : option A)
    (ok : A -> bool) : list string :=
  match v with
  | None => if partial then [] else [fname]
  | Some x => if ok x then [] else [fname]
  end.

(** *** Python's [str.strip()] and [len()] on UTF-8 strings

    [str.isspace] holds for U+0009..U+000D, U+001C..U+0020, U+0085,
    U+00A0, U+1680, U+2000..U+200A, U+2028, U+2029, U+202F, U+205F and
    U+3000; here they are matched by their UTF-8 encodings of one, two
    and three bytes. *)

Definition ws1 (a : ascii) : bool :=
  let x := nat_of_ascii a in
  ((9 <=? x) && (x <=? 13)) || ((28 <=? x) && (x <=? 32)).

Definition ws2 (a b : ascii) : bool :=
  let x := nat_of_ascii a in
  let y := nat_of_ascii b in
  (x =? 194) && ((y =? 133) || (y =? 160)).

Definition ws3 (a b c : ascii) : bool :=
  let x := nat_of_ascii a in
  let y := nat_of_ascii b in
  let z := nat_of_ascii c in
  ((x =? 225) && (y =? 154) && (z =? 128))
  || ((x =? 226) && (y =? 128) &&
      (((128 <=? z) && (z <=? 138)) || (z =? 168) || (z =? 169) || (z =? 175)))
  || ((x =? 226) && (y =? 129) && (z =? 159))
  || ((x =? 227) && (y =? 128) && (z =? 128)).

(** Drops the whitespace characters at the front of a byte list; [w2]
    and [w3] see the bytes in list order. *)
Fixpoint drop_ws (w1 : ascii -> bool) (w2 : ascii -> ascii -> bool)
    (w3 : ascii -> ascii -> ascii -> bool) (l : list ascii) : list ascii :=
  match l with
  | [] => []
  | a :: r1 =>
      if w1 a then drop_ws w1 w2 w3 r1
      else match r1 with
           | b :: r2 =>
               if w2 a b then drop_ws w1 w2 w3 r2
               else match r2 with
                    | c :: r3 => if w3 a b c then drop_ws w1 w2 w3 r3 else l
                    | [] => l
                    end
           | [] => l
           end
  end.

(** [str.strip()]: the leading whitespace, then the trailing one (matched
    on the reversed bytes). *)
Definition py_strip (s : string) : string :=
  let l := drop_ws ws1 ws2 ws3 (list_ascii_of_string s) in
  string_of_list_ascii
    (rev (drop_ws ws1 (fun b a => ws2 a b) (fun c b a => ws3 a b c) (rev l))).

(** [len()] of a [str]: its code points, the bytes that are not UTF-8
    continuation bytes. *)
Definition utf8_length (s : string) : nat :=
  List.length (filter (fun c => negb ((128 <=? nat_of_ascii c) && (nat_of_ascii c <? 192)))
                 (list_ascii_of_string s)).

Definition has_nul (s : string) : bool :=
  existsb (fun c => Nat.eqb (nat_of_ascii c) 0) (list_ascii_of_string s).

(** The [name] field, a [CharField(max_length=256)] built from the model
    ([trim_whitespace], [allow_blank=False]): a value that is empty once
    stripped is [blank]; the stripped value then meets
    [MaxLengthValidator(256)] and [ProhibitNullCharactersValidator]. *)
Definition name_ok (s : string) : bool :=
  let v := py_strip s in
  negb (String.eqb v EmptyString) && (utf8_length v <=? 256) && negb (has_nul v).

(** The [text] field, a [CharField] built from the TextField. *)
Definition text_ok (s : string) : bool :=
  let v := py_strip s in
  negb (String.eqb v EmptyString) && negb (has_nul v).

(** The value [CharField.to_internal_value] keeps. *)
Definition cleaned (v : option string) : option string := option_map py_strip v.

(** *** [Base64ImageField.to_internal_value] *)

Fixpoint is_prefix (p s : string) : bool :=
  match p, s with
  | EmptyString, _ => true
  | String c p', String d s' => Ascii.eqb c d && is_prefix p' s'
  | String _ _, EmptyString => false
  end.

Fixpoint strip_prefix (p s : string) : option string :=
  match p, s with
  | EmptyString, _ => Some s
  | String c p', String d s' => if Ascii.eqb c d then strip_prefix p' s' else None
  | String _ _, EmptyString => None
  end.

(** The text before and after the first occurrence of [sep]. *)
Fixpoint split_once (sep s : string) : option (string * string) :=
  match strip_prefix sep s with
  | Some rest => Some (EmptyString, rest)
  | None =>
      match s with
      | EmptyString => None
      | String c s' =>
          match split_once sep s' with
          | Some (a, b) => Some (String c a, b)
          | None => None
          end
      end
  end.

Definition b64_char (c : ascii) : bool :=
  let x := nat_of_ascii c in
  ((65 <=? x) && (x <=? 90)) || ((97 <=? x) && (x <=? 122))
  || ((48 <=? x) && (x <=? 57)) || (x =? 43) || (x =? 47).

(** [binascii.a2b_base64] in its default, non-strict mode (CPython 3.11
    and later), counting the decoded bytes; [None] is [binascii.Error].
    Characters outside the alphabet are skipped; a pad ends the input
    once [quad_pos + pads >= 4] with [quad_pos >= 2]; an unfinished quad
    at the end is an error. *)
Fixpoint a2b_base64_len (l : list ascii) (quad_pos pads n : nat) : option nat :=
  match l with
  | [] => if Nat.eqb quad_pos 0 then Some n else None
  | c :: l' =>
      if Ascii.eqb c "="%char then
        if 2 <=? quad_pos then
          if 4 <=? quad_pos + S pads then Some n
          else a2b_base64_len l' quad_pos (S pads) n
        else a2b_base64_len l' quad_pos pads n
      else if negb (b64_char c) then a2b_base64_len l' quad_pos pads n
      else match quad_pos with
           | 0 => a2b_base64_len l' 1 0 n
           | 1 => a2b_base64_len l' 2 0 (S n)
           | 2 => a2b_base64_len l' 3 0 (S n)
           | _ => a2b_base64_len l' 0 0 (S n)
           end
  end.

(** [base64.b64decode(imgstr)]: a [str] argument must be ASCII
    (ValueError otherwise); the number of decoded bytes. *)
Definition b64decode_len (s : string) : option nat :=
  let l := list_ascii_of_string s in
  if forallb (fun c => nat_of_ascii c <? 128) l then a2b_base64_len l 0 0 0
  else None.

Inductive FieldOutcome := FieldPass | FieldFail | FieldRaise.

(** A [data:image] string is split on [;base64,] into exactly two parts
    (ValueError otherwise) and decoded; DRF's [FileField] refuses an empty
    file, [ImageField] checks the rest.  Any other string is not a file
    ([invalid]).  [FieldRaise] is an exception DRF does not catch. *)
Definition image_field (d : ImageInput) : FieldOutcome :=
  let s := image_value d in
  if is_prefix "data:image" s then
    match split_once ";base64," s with
    | None => FieldRaise
    | Some (_, imgstr) =>
        match split_once ";base64," imgstr with
        | Some _ => FieldRaise
        | None =>
            match b64decode_len imgstr with
            | None => FieldRaise
            | Some 0 => FieldFail
            | Some _ => if image_file_valid d then FieldPass else FieldFail
            end
        end
    end
  else FieldFail.

(** The image field in [to_internal_value]: [None] when its exception
    leaves the serializer. *)
Definition image_errors (partial : bool) (v : option ImageInput)
    : option (list string) :=
  match v with
  | None => Some (if partial then [] else ["image"%string])
  | Some d =>
      match image_field d with
      | FieldPass => Some []
      | FieldFail => Some ["image"%string]
      | FieldRaise => None
      end
  end.

Definition image_raises (p : RecipePayload) : bool :=
  match p_image p with
  | Some d => match image_field d with FieldRaise => true | _ => false end
  | None => false
  end.

(** [to_internal_value]: the fields in the order of [Meta.fields], each
    validation error collected; [None] when the image field raises. *)
Definition field_validation (db : Store) (partial : bool) (p : RecipePayload)
    : option (list string) :=
  let e_ingredients :=
    field_errors partial "ingredients"%string (p_ingredients p)
      (fun l => forallb (ingredient_entry_ok db) l && validate_ingredients l) in
  let e_tags :=
    field_errors partial "tags"%string (p_tags p)
      (fun l => forallb (tag_exists db) l && validate_tags l) in
  match image_errors partial (p_image p) with
  | None => None
  | Some e_image =>
      Some (e_ingredients ++ e_tags ++ e_image
            ++ field_errors partial "name"%string (p_name p) name_ok
            ++ field_errors partial "text"%string (p_text p) text_ok
            ++ field_errors partial "cooking_time"%string (p_cooking_time p)
                 integer_field_ok)
  end.

(** [RecipeWriteSerializer.validate]: both keys are required. *)
Definition validate (p : RecipePayload) : list string :=
  match p_ingredients p, p_tags p with
  | None, _ => ["ingredients"%string]
  | _, None => ["tags"%string]
  | _, _ => []
  end.

(** [serializer.is_valid()]: [validate] runs only when the fields pass;
    [None] is the uncaught exception of the image field. *)
Definition run_validation (db : Store) (partial : bool) (p : RecipePayload)
    : option (list string) :=
  match field_validation db partial p with
  | None => None
  | Some [] => Some (validate p)
  | Some errs => Some errs
  end.

(** [RecipeWriteSerializer.create_ingredients]: one bulk insert. *)
Definition create_ingredients (db : Store) (recipe : nat)
    (data : list IngredientEntry) : Store :=
  set_ingredient_in_recipe db
    (ingredient_in_recipe db ++
     map (fun e => mkIngredientInRecipe (entry_id e) recipe
                     (Z.to_nat (entry_amount e))) data).

(** [instance.tags.set(tags_data)]: the links of the recipe become the
    given tags. *)
Definition set_tags (db : Store) (recipe : nat) (ts : list nat) : Store :=
  set_recipe_tags db
    (filter (fun p => negb (Nat.eqb (fst p) recipe)) (recipe_tags db)
     ++ map (fun t => (recipe, t)) ts).

(** [instance.ingredients.clear()]: the through rows of the recipe go. *)
Definition clear_ingredients (db : Store) (recipe : nat) : Store :=
  set_ingredient_in_recipe db
    (filter (fun r => negb (Nat.eqb (iir_recipe r) recipe))
       (ingredient_in_recipe db)).

Definition opt_default {A} (o : option A) (d : A) : A :=
  match o with Some x => x | None => d end.

Definition next_recipe_id (db : Store) : nat :=
  S (fold_right Nat.max 0 (map recipe_id (recipes db))).

(** [RecipeWriteSerializer.create]: the Recipe row, its tags, then its
    ingredient rows.  Returns the new recipe's id and the store. *)
Definition serializer_create (db : Store) (author : nat) (p : RecipePayload)
    : nat * Store :=
  let rid := next_recipe_id db in
  let r := mkRecipe rid author (opt_default (cleaned (p_name p)) EmptyString)
             (opt_default (cleaned (p_text p)) EmptyString)
             (Z.to_nat (opt_default (p_cooking_time p) 0%Z)) in
  let db1 := set_recipes db (r :: recipes db) in
  let db2 := set_tags db1 rid (opt_default (p_tags p) []) in
  (rid, create_ingredients db2 rid (opt_default (p_ingredients p) [])).

(** [setattr(instance, attr, value)] for the fields present. *)
Definition apply_attrs (r : Recipe) (p : RecipePayload) : Recipe :=
  mkRecipe (recipe_id r) (recipe_author r)
    (opt_default (cleaned (p_name p)) (recipe_name r))
    (opt_default (cleaned (p_text p)) (recipe_text r))
    (match p_cooking_time p with
     | Some c => Z.to_nat c
     | None => cooking_time r
     end).

(** [RecipeWriteSerializer.update] *)
Definition serializer_update (db : Store) (rid : nat) (p : RecipePayload)
    : Store :=
  let db1 := set_recipes db
               (map (fun r => if Nat.eqb (recipe_id r) rid
                              then apply_attrs r p else r) (recipes db)) in
  let db2 := match p_tags p with
             | Some ts => set_tags db1 rid ts
             | None => db1
             end in
  match p_ingredients p with
  | Some data => create_ingredients (clear_ingredients db2 rid) rid data
  | None => db2
  end.

(** The row update [serializer_update] maps over the recipe table. *)
Definition update_row (rid : nat) (p : RecipePayload) (r : Recipe) : Recipe :=
  if Nat.eqb (recipe_id r) rid then apply_attrs r p else r.

Definition find_recipe (db : Store) (rid : nat) : option Recipe :=
  find (fun r => Nat.eqb (recipe_id r) rid) (recipes db).

(** [RecipeViewSet.create] for the authenticated [user]. *)
Definition recipe_create (db : Store) (user : nat) (p : RecipePayload)
    : Response * Store :=
  match run_validation db false p with
  | None => (ServerError500, db)
  | Some [] => (Created201, snd (serializer_create db user p))
  | Some errs => (BadRequest400 errs, db)
  end.

(** [RecipeViewSet.update] for the authenticated [user] and the request's
    query parameters [q]: [get_object] (the filterset's 400, the 404, then
    the [IsAuthor] object permission), then validation and save.
    [partial] is [true] for PATCH. *)
Definition recipe_update (db : Store) (user : nat) (q : ListQuery) (rid : nat)
    (partial : bool) (p : RecipePayload) : Response * Store :=
  match get_recipe_object db (Some user) q rid with
  | inl err => (err, db)
  | inr r =>
      if negb (Nat.eqb (recipe_author r) user) then (Forbidden403, db)
      else match run_validation db partial p with
           | None => (ServerError500, db)
           | Some [] => (Ok200, serializer_update db rid p)
           | Some errs => (BadRequest400 errs, db)
           end
  end.

Definition recipe_ingredient_pairs (db : Store) (rid : nat) : list (nat * nat) :=
  map (fun r => (iir_ingredient r, amount r))
    (filter (fun r => Nat.eqb (iir_recipe r) rid) (ingredient_in_recipe db)).

Definition recipe_tag_ids (db : Store) (rid : nat) : list nat :=
  map snd (filter (fun p => Nat.eqb (fst p) rid) (recipe_tags db)).

(* ------------------------------------------------------------------ *)
(** ** Relationship toggles ([api/views.py])

    Each action runs for an authenticated [user].  The recipe actions find
    their recipe with [get_object], through the recipe list filtered with
    the request's query parameters [q]; [subscribe] and [unsubscribe] use
    [get_object_or_404(User, id=id)]. *)

(** [RecipeViewSet.add_to_shopping_cart] *)
Definition add_to_shopping_cart (db : Store) (user : nat) (q : ListQuery) (rid : nat)
    : Response * Store :=
  match get_recipe_object db (Some user) q rid with
  | inl err => (err, db)
  | inr _ =>
      if row_exists (shopping_cart db) user rid
      then (BadRequest400 ["errors: recipe already in the shopping cart"%string], db)
      else (Created201, set_shopping_cart db (shopping_cart db ++ [(user, rid)]))
  end.

(** [RecipeViewSet.remove_from_shopping_cart] *)
Definition remove_from_shopping_cart (db : Store) (user : nat) (q : ListQuery) (rid : nat)
    : Response * Store :=
  match get_recipe_object db (Some user) q rid with
  | inl err => (err, db)
  | inr _ =>
      if negb (row_exists (shopping_cart db) user rid)
      then (BadRequest400 ["errors: recipe not in the shopping cart"%string], db)
      else (NoContent204,
            set_shopping_cart db (delete_rows (shopping_cart db) user rid))
  end.

(** [RecipeViewSet.add_to_favorite] *)
Definition add_to_favorite (db : Store) (user : nat) (q : ListQuery) (rid : nat)
    : Response * Store :=
  match get_recipe_object db (Some user) q rid with
  | inl err => (err, db)
  | inr _ =>
      if row_exists (favorites db) user rid
      then (BadRequest400 ["errors: recipe already in favorites"%string], db)
      else (Created201, set_favorites db (favorites db ++ [(user, rid)]))
  end.

(** [RecipeViewSet.remove_from_favorite] *)
Definition remove_from_favorite (db : Store) (user : nat) (q : ListQuery) (rid : nat)
    : Response * Store :=
  match get_recipe_object db (Some user) q rid with
  | inl err => (err, db)
  | inr _ =>
      if negb (row_exists (favorites db) user rid)
      then (BadRequest400 ["errors: recipe not in favorites"%string], db)
      else (NoContent204, set_favorites db (delete_rows (favorites db) user rid))
  end.

Definition self_subscription_error : string :=
  "errors: cannot subscribe to yourself".

(** [CustomUserViewSet.subscribe] *)
Definition subscribe (db : Store) (user author : nat) : Response * Store :=
  if negb (user_exists db author) then (NotFound404, db)
  else if Nat.eqb user author
  then (BadRequest400 [self_subscription_error], db)
  else if row_exists (subscriptions db) user author
  then (BadRequest400 ["errors: already subscribed to this user"%string], db)
  else (Created201, set_subscriptions db (subscriptions db ++ [(user, author)])).

(** [CustomUserViewSet.unsubscribe] *)
Definition unsubscribe (db : Store) (user author : nat) : Response * Store :=
  if negb (user_exists db author) then (NotFound404, db)
  else if negb (row_exists (subscriptions db) user author)
  then (BadRequest400 ["errors: not subscribed to this user"%string], db)
  else (NoContent204,
        set_subscriptions db (delete_rows (subscriptions db) user author)).

(** Number of rows of a relation for one (user, target) pair. *)
Definition pair_count (rel : list (nat * nat)) (u t : nat) : nat :=
  List.length (filter (pair_eqb (u, t)) rel).

(** The three relations, by the actions that toggle them. *)
Inductive Relation := FavoriteRel | ShoppingCartRel | SubscriptionRel.

Definition relation_rows (rel : Relation) (db : Store) : list (nat * nat) :=
  match rel with
  | FavoriteRel => favorites db
  | ShoppingCartRel => shopping_cart db
  | SubscriptionRel => subscriptions db
  end.

Definition relation_add (rel : Relation) (db : Store) (u : nat) (q : ListQuery)
    (t : nat) : Response * Store :=
  match rel with
  | FavoriteRel => add_to_favorite db u q t
  | ShoppingCartRel => add_to_shopping_cart db u q t
  | SubscriptionRel => subscribe db u t
  end.

Definition relation_remove (rel : Relation) (db : Store) (u : nat)
    (q : ListQuery) (t : nat) : Response * Store :=
  match rel with
  | FavoriteRel => remove_from_favorite db u q t
  | ShoppingCartRel => remove_from_shopping_cart db u q t
  | SubscriptionRel => unsubscribe db u t
  end.

Definition target_exists (rel : Relation) (db : Store) (t : nat) : bool :=
  match rel with
  | SubscriptionRel => user_exists db t
  | _ => recipe_exists db t
  end.


(* ------------------------------------------------------------------ *)
(** ** Read-side fields ([api/serializers.py])

    [RecipeReadSerializer.get_is_favorited],
    [RecipeReadSerializer.get_is_in_shopping_cart] and
    [UserSerializer.get_is_subscribed] (the same in
    [SubscriptionSerializer]): [False] for the anonymous user, otherwise
    whether the row exists. *)

Definition get_is_favorited (db : Store) (user : Caller) (rid : nat) : bool :=
  match user with
  | Some u => row_exists (favorites db) u rid
  | None => false
  end.

Definition get_is_in_shopping_cart (db : Store) (user : Caller) (rid : nat)
    : bool :=
  match user with
  | Some u => row_exists (shopping_cart db) u rid
  | None => false
  end.

Definition get_is_subscribed (db : Store) (user : Caller) (author : nat)
    : bool :=
  match user with
  | Some u => row_exists (subscriptions db) u author
  | None => false
  end.

(** The read-side field of each relation. *)
Definition relation_flag (rel : Relation) : Store -> Caller -> nat -> bool :=
  match rel with
  | FavoriteRel => get_is_favorited
  | ShoppingCartRel => get_is_in_shopping_cart
  | SubscriptionRel => get_is_subscribed
  end.

(** [SubscriptionSerializer.get_recipes]: the [recipes_limit] query
    parameter as [int(...)] makes of it: absent or empty (falsy, no
    slicing), an integer, or a value [int] refuses (ValueError).  A
    negative bound is refused by the queryset slicing.  [None] is the
    error. *)
Inductive LimitParam := LimitAbsent | LimitInt (n : Z) | LimitNotInt.

(** [obj.recipes.all()] *)
Definition author_recipes (db : Store) (a : nat) : list Recipe :=
  filter (fun r => Nat.eqb (recipe_author r) a) (recipes db).

Definition get_recipes (db : Store) (a : nat) (lim : LimitParam)
    : option (list Recipe) :=
  match lim with
  | LimitAbsent => Some (author_recipes db a)
  | LimitInt n =>
      if (n <? 0)%Z then None
      else Some (firstn (Z.to_nat n) (author_recipes db a))
  | LimitNotInt => None
  end.

(* ------------------------------------------------------------------ *)
(** ** [IngredientViewSet.get_queryset] ([api/views.py])

    [name__icontains], with the case folding of ASCII letters. *)

Fixpoint contains (p s : string) : bool :=
  match s with
  | EmptyString => is_prefix p s
  | String _ s' => is_prefix p s || contains p s'
  end.

Definition icontains (needle hay : string) : bool :=
  contains (lower needle) (lower hay).

(** [if name:] skips the filter for an absent or empty parameter. *)
Definition ingredient_search (db : Store) (name : option string)
    : list Ingredient :=
  match name with
  | Some n =>
      if String.eqb n EmptyString then ingredients db
      else filter (fun g => icontains n (ingredient_name g)) (ingredients db)
  | None => ingredients db
  end.

(* ------------------------------------------------------------------ *)
(** ** The [load_ingredients] command
    ([api/management/commands/load_ingredients.py])

    The file is given by the rows [csv.reader] yields ([None] when the
    file does not exist).  Each row is unpacked into
    [name, measurement_unit] (a ValueError unless it has two cells) and
    passed to [Ingredient.objects.get_or_create], which raises
    MultipleObjectsReturned when several rows match.  No transaction
    wraps the loop: the rows created before an exception stay. *)

Definition set_ingredients (db : Store) (gs : list Ingredient) : Store :=
  mkStore (users db) gs (tags db) (recipes db) (recipe_tags db)
    (ingredient_in_recipe db) (subscriptions db) (shopping_cart db)
    (favorites db).

Definition same_pair (name unit : string) (g : Ingredient) : bool :=
  String.eqb (ingredient_name g) name && String.eqb (measurement_unit g) unit.

Definition next_ingredient_id (gs : list Ingredient) : nat :=
  S (fold_right Nat.max 0 (map ingredient_id gs)).

(** [Ingredient.objects.get_or_create(name=..., measurement_unit=...)];
    [None] is MultipleObjectsReturned. *)
Definition get_or_create (gs : list Ingredient) (name unit : string)
    : option (list Ingredient) :=
  match filter (same_pair name unit) gs with
  | [] => Some (gs ++ [mkIngredient (next_ingredient_id gs) name unit])
  | [_] => Some gs
  | _ => None
  end.

(** The loop; [false] when it stopped on an exception. *)
Fixpoint load_rows (gs : list Ingredient) (rows : list (list string))
    : bool * list Ingredient :=
  match rows with
  | [] => (true, gs)
  | [name; unit] :: rows' =>
      match get_or_create gs name unit with
      | Some gs' => load_rows gs' rows'
      | None => (false, gs)
      end
  | _ :: _ => (false, gs)
  end.

Inductive CommandOutcome :=
| CommandSuccess        (* "Ингредиенты добавлены" written to stdout *)
| CommandFileMissing    (* CommandError for FileNotFoundError *)
| CommandCrashed.       (* ValueError or MultipleObjectsReturned *)

(** [Command.handle] *)
Definition load_ingredients (db : Store) (file : option (list (list string)))
    : CommandOutcome * Store :=
  match file with
  | None => (CommandFileMissing, db)
  | Some rows =>
      let (ok, gs) := load_rows (ingredients db) rows in
      (if ok then CommandSuccess else CommandCrashed, set_ingredients db gs)
  end.

(** Number of ingredients with a given (name, unit). *)
Definition pair_ingredients (gs : list Ingredient) (name unit : string) : nat :=
  List.length (filter (same_pair name unit) gs).

(** Every IngredientInRecipe row and every tag link names an existing
    recipe (the foreign keys). *)
Definition store_fk_ok (db : Store) : bool :=
  forallb (fun r => recipe_exists db (iir_recipe r)) (ingredient_in_recipe db)
  && forallb (fun p => recipe_exists db (fst p)) (recipe_tags db).

(** [GET /recipes/] with one flag parameter. *)
Definition favorited_query (v : string) : ListQuery :=
  mkListQuery None (Some v) None [].

Definition in_cart_query (v : string) : ListQuery :=
  mkListQuery (Some v) None None [].

(* ------------------------------------------------------------------ *)
(** ** Sample stores *)

Definition flour : Ingredient := mkIngredient 1 "flour" "g".
Definition eggs : Ingredient := mkIngredient 2 "eggs" "pcs".
Definition breakfast : Tag := mkTag 1 "Breakfast" "breakfast".
Definition dinner : Tag := mkTag 2 "Dinner" "dinner".

(** User 1 has recipes 10 (200 g flour, 3 eggs) and 11 (300 g flour) in
    the cart; recipe 10 is tagged breakfast, recipe 11 dinner. *)
Definition sample_store : Store :=
  mkStore [1; 2] [flour; eggs] [breakfast; dinner]
    [mkRecipe 10 2 "Pancakes" "Mix and fry." 15;
     mkRecipe 11 2 "Bread" "Knead and bake." 60]
    [(10, 1); (11, 2)]
    [mkIngredientInRecipe 1 10 200; mkIngredientInRecipe 2 10 3;
     mkIngredientInRecipe 1 11 300]
    [] [(1, 10); (1, 11)] [].

(** Two recipes with the largest amount of flour each, both in user 1's
    cart. *)
Definition big_cart_store : Store :=
  mkStore [1] [flour] [] [mkRecipe 10 1 "A" "a" 5; mkRecipe 11 1 "B" "b" 5]
    [] [mkIngredientInRecipe 1 10 32000; mkIngredientInRecipe 1 11 32000]
    [] [(1, 10); (1, 11)] [].

(** A PNG given as a data URI (the eight bytes of the PNG signature),
    taken by Pillow as an image. *)
Definition sample_image : ImageInput :=
  mkImageInput "data:image/png;base64,iVBORw0KGgo=" true.

(** A data URI whose base64 part ends in an unfinished quad: [b64decode]
    raises [binascii.Error]. *)
Definition bad_padding_image : ImageInput :=
  mkImageInput "data:image/png;base64,abc" true.

(** A payload with every field of a valid recipe. *)
Definition full_payload : RecipePayload :=
  mkRecipePayload (Some [mkIngredientEntry 2 7%Z]) (Some [1])
    (Some sample_image) (Some "Omelette"%string) (Some "Beat and fry."%string)
    (Some 10%Z).

(** A full payload whose name and text carry surrounding whitespace. *)
Definition padded_payload : RecipePayload :=
  mkRecipePayload (Some [mkIngredientEntry 2 7%Z]) (Some [1])
    (Some sample_image) (Some " Crepes "%string) (Some "Whisk. "%string)
    (Some 10%Z).

(** A payload naming ingredient 1 twice, with the image [d]. *)
Definition duplicate_payload (d : ImageInput) : RecipePayload :=
  mkRecipePayload (Some [mkIngredientEntry 1 5%Z; mkIngredientEntry 1 6%Z])
    (Some [1]) (Some d) (Some "Cake"%string) (Some "Bake."%string) (Some 30%Z).



(** Sample CSV content: two ingredients, the second one repeated. *)
Definition sample_rows : list (list string) :=
  [["salt"; "g"]; ["milk"; "ml"]; ["milk"; "ml"]]%string.

(* ------------------------------------------------------------------ *)
(** ** Lemmas on the grouping *)

Section Grouping.

Lemma add_group_keys (k k' : key) (a : nat) (gs : list (key * nat)) :
  In k' (map fst (add_group k a gs)) <-> k' = k \/ In k' (map fst gs).
Proof.
  induction gs as [|[k0 t] gs IH]; simpl.
  - intuition congruence.
  - destruct (key_eq_dec k k0) as [->|Hne]; simpl.
    + intuition congruence.
    + rewrite IH. tauto.
Qed.

Lemma add_group_nodup (k : key) (a : nat) (gs : list (key * nat)) :
  NoDup (map fst gs) -> NoDup (map fst (add_group k a gs)).
Proof.
  induction gs as [|[k0 t] gs IH]; simpl; intros Hnd.
  - constructor; [intros []|constructor].
  - inversion Hnd as [|? ? Hnin Hnd']; subst.
    destruct (key_eq_dec k k0) as [->|Hne]; simpl.
    + constructor; assumption.
    + constructor; [|now apply IH].
      rewrite add_group_keys. intros [->|Hin]; [now apply Hne|contradiction].
Qed.

Lemma sum_amounts_cons (k k0 : key) (t : nat) (l : list (key * nat)) :
  sum_amounts k ((k0, t) :: l) =
  (if key_eq_dec k0 k then t else 0) + sum_amounts k l.
Proof.
  unfold sum_amounts; simpl. destruct (key_eq_dec k0 k); reflexivity.
Qed.

Lemma add_group_sum (k k' : key) (a : nat) (gs : list (key * nat)) :
  sum_amounts k' (add_group k a gs) =
  sum_amounts k' gs + (if key_eq_dec k k' then a else 0).
Proof.
  induction gs as [|[k0 t] gs IH]; simpl.
  - rewrite sum_amounts_cons. unfold sum_amounts at 1. simpl. lia.
  - destruct (key_eq_dec k k0) as [->|Hne].
    + rewrite !sum_amounts_cons.
      destruct (key_eq_dec k0 k'); lia.
    + rewrite !sum_amounts_cons, IH. lia.
Qed.

Lemma group_sum_sum (k : key) (rows : list (key * nat)) :
  sum_amounts k (group_sum rows) = sum_amounts k rows.
Proof.
  induction rows as [|[k0 a] rows IH]; simpl.
  - reflexivity.
  - rewrite add_group_sum, IH, sum_amounts_cons. lia.
Qed.

Lemma group_sum_keys (k : key) (rows : list (key * nat)) :
  In k (map fst (group_sum rows)) <-> exists a, In (k, a) rows.
Proof.
  induction rows as [|[k0 a] rows IH]; simpl.
  - split; [intros []|intros [? []]].
  - rewrite add_group_keys, IH. split.
    + intros [->|[a' Ha']]; [exists a; now left|exists a'; now right].
    + intros [a' [Heq|Hin]]; [inversion Heq; now left|right; now exists a'].
Qed.

Lemma group_sum_nodup (rows : list (key * nat)) :
  NoDup (map fst (group_sum rows)).
Proof.
  induction rows as [|[k0 a] rows IH]; simpl.
  - constructor.
  - now apply add_group_nodup.
Qed.

Lemma sum_amounts_absent (k : key) (gs : list (key * nat)) :
  ~ In k (map fst gs) -> sum_amounts k gs = 0.
Proof.
  induction gs as [|[k0 t] gs IH]; simpl; intros Hnin; [reflexivity|].
  rewrite sum_amounts_cons.
  destruct (key_eq_dec k0 k) as [->|_]; [exfalso; tauto|].
  apply IH. tauto.
Qed.

Lemma nodup_sum_amounts (k : key) (t : nat) (gs : list (key * nat)) :
  NoDup (map fst gs) -> In (k, t) gs -> sum_amounts k gs = t.
Proof.
  induction gs as [|[k0 t0] gs IH]; simpl; intros Hnd Hin; [contradiction|].
  inversion Hnd as [|? ? Hnin Hnd']; subst.
  rewrite sum_amounts_cons.
  destruct Hin as [Heq|Hin].
  - inversion Heq; subst.
    destruct (key_eq_dec k k) as [_|]; [|congruence].
    rewrite sum_amounts_absent by assumption. lia.
  - destruct (key_eq_dec k0 k) as [->|_].
    + exfalso. apply Hnin. now apply (in_map fst _ (k, t)).
    + now apply IH.
Qed.

End Grouping.

Lemma cart_rows_spec (db : Store) (u : nat) (k : key) (a : nat) :
  In (k, a) (cart_rows db u) <->
  exists r g, In r (ingredient_in_recipe db) /\
              In (iir_recipe r) (cart_recipe_ids db u) /\
              find_ingredient db (iir_ingredient r) = Some g /\
              k = (ingredient_name g, measurement_unit g) /\ a = amount r.
Proof.
  unfold cart_rows. rewrite in_flat_map. split.
  - intros [r [Hr Hin]].
    destruct (existsb (Nat.eqb (iir_recipe r)) (cart_recipe_ids db u)) eqn:Hc;
      [|destruct Hin].
    destruct (find_ingredient db (iir_ingredient r)) as [g|] eqn:Hg;
      [|destruct Hin].
    destruct Hin as [Heq|[]]. inversion Heq; subst.
    exists r, g. repeat split; try reflexivity; try assumption.
    apply existsb_exists in Hc as [x [Hx Hxe]].
    apply Nat.eqb_eq in Hxe. now subst.
  - intros [r [g [Hr [Hc [Hg [-> ->]]]]]].
    exists r. split; [assumption|].
    assert (Hc' : existsb (Nat.eqb (iir_recipe r)) (cart_recipe_ids db u) = true).
    { apply existsb_exists. exists (iir_recipe r). split; [assumption|].
      apply Nat.eqb_refl. }
    rewrite Hc', Hg. now left.
Qed.

Lemma group_sum_totals (rows : list (key * nat)) (k : key) (t : nat) :
  In (k, t) (group_sum rows) -> t = sum_amounts k rows.
Proof.
  intros Hin. rewrite <- group_sum_sum. symmetry.
  apply nodup_sum_amounts; [apply group_sum_nodup|assumption].
Qed.

(* ------------------------------------------------------------------ *)
(** * Properties *)

(** The scenario of the spec: recipe A (200 g flour, 3 eggs) and recipe B
    (300 g flour) give "flour (g) - 500" and "eggs (pcs) - 3". *)
Example download_sample_store :
  download_shopping_cart sample_store 1 =
  ("flour (g) - 500" ++ newline ++ "eggs (pcs) - 3" ++ newline)%string.
Proof. vm_compute. reflexivity. Qed.

(** C1: the shopping list is the concatenation of one line
    "{name} ({unit}) - {amount}\n" per group; the groups' (name, unit)
    keys are pairwise distinct, they are exactly the keys of the
    IngredientInRecipe rows of the recipes in the user's cart (joined with
    their ingredient), and each group's amount is the sum of the amounts
    of the rows with its key: rows of distinct ingredients with the same
    name and unit are merged. *)
Theorem download_shopping_cart_groups (db : Store) (u : nat) :
  exists groups : list (key * nat),
    download_shopping_cart db u =
      String.concat EmptyString (map shopping_line groups) /\
    NoDup (map fst groups) /\
    (forall k, In k (map fst groups) <->
       exists r g, In r (ingredient_in_recipe db) /\
                   In (iir_recipe r) (cart_recipe_ids db u) /\
                   find_ingredient db (iir_ingredient r) = Some g /\
                   k = (ingredient_name g, measurement_unit g)) /\
    (forall k t, In (k, t) groups -> t = sum_amounts k (cart_rows db u)).
Proof.
  exists (group_sum (cart_rows db u)).
  split; [reflexivity|].
  split; [apply group_sum_nodup|].
  split; [|apply group_sum_totals].
  intros k. rewrite group_sum_keys. split.
  - intros [a Ha]. apply cart_rows_spec in Ha as [r [g [? [? [? [? _]]]]]].
    now exists r, g.
  - intros [r [g [? [? [? ?]]]]]. exists (amount r).
    apply cart_rows_spec. now exists r, g.
Qed.

(** C10: every group's total is the exact sum of its rows' amounts, with
    no cap: two rows of 32000 (the largest amount a row may have) give a
    line with 64000. *)
Theorem shopping_totals_exact_uncapped :
  (forall db u k t, In (k, t) (group_sum (cart_rows db u)) ->
                    t = sum_amounts k (cart_rows db u)) /\
  (exists db u, (forall r, In r (ingredient_in_recipe db) ->
                           1 <= amount r <= 32000) /\
                download_shopping_cart db u =
                  ("flour (g) - 64000" ++ newline)%string).
Proof.
  split.
  - intros db u k t. apply group_sum_totals.
  - exists big_cart_store, 1. split.
    + simpl. intros r [<-|[<-|[]]]; split; apply Nat.leb_le; vm_compute;
        reflexivity.
    + vm_compute. reflexivity.
Qed.

Lemma get_queryset_anonymous (db : Store) (q : ListQuery) :
  get_queryset db None q = recipes db.
Proof.
  unfold get_queryset.
  destruct (q_is_in_shopping_cart q), (q_is_favorited q); reflexivity.
Qed.

Lemma filter_by_relation_anonymous (rel : list (nat * nat)) (v : option bool)
    (qs : list Recipe) :
  filter_by_relation rel None v qs = qs.
Proof. destruct v as [[]|]; reflexivity. Qed.

(** C7: for an anonymous caller, [is_favorited] and [is_in_shopping_cart]
    change nothing: the answer (list or filterset error) is the one of the
    same query without them. *)
Theorem anonymous_user_flags_ignored (db : Store) (q : ListQuery) :
  recipe_list db None q = recipe_list db None (without_user_flags q).
Proof.
  unfold recipe_list, filtered_recipes.
  rewrite !get_queryset_anonymous, !filter_by_relation_anonymous.
  destruct q; reflexivity.
Qed.



Lemma image_errors_ok (partial : bool) (p : RecipePayload) :
  image_raises p = false ->
  exists e, image_errors partial (p_image p) = Some e /\
            (forall x, In x e -> x = "image"%string).
Proof.
  unfold image_raises, image_errors.
  destruct (p_image p) as [d|]; [destruct (image_field d)|]; intros H;
    try discriminate; eexists; (split; [reflexivity|]).
  - intros x [].
  - intros x [<-|[]]. reflexivity.
  - destruct partial; simpl; intros x Hx; [destruct Hx|].
    destruct Hx as [<-|[]]. reflexivity.
Qed.

Lemma image_errors_raise (partial : bool) (p : RecipePayload) :
  image_raises p = true -> image_errors partial (p_image p) = None.
Proof.
  unfold image_raises, image_errors.
  destruct (p_image p) as [d|]; [destruct (image_field d)|]; intros H;
    try discriminate; reflexivity.
Qed.

Lemma run_validation_raise (db : Store) (partial : bool) (p : RecipePayload) :
  image_raises p = true -> run_validation db partial p = None.
Proof.
  intros H. unfold run_validation, field_validation. cbv zeta.
  rewrite (image_errors_raise partial p H). reflexivity.
Qed.

Lemma run_validation_some (db : Store) (partial : bool) (p : RecipePayload) :
  image_raises p = false -> exists errs, run_validation db partial p = Some errs.
Proof.
  intros H. destruct (image_errors_ok partial p H) as [e [He _]].
  unfold run_validation, field_validation. cbv zeta. rewrite He.
  destruct (_ ++ _); eexists; reflexivity.
Qed.





(** C6: a subscription of a user to themself is refused with the
    self-subscription error, whatever subscriptions already exist (the
    check comes before the already-subscribed one), and the store is
    left as it was. *)
Theorem self_subscription_rejected (db : Store) (u : nat)
    (Hu : user_exists db u = true) :
  subscribe db u u = (BadRequest400 [self_subscription_error], db).
Proof.
  unfold subscribe. rewrite Hu, Nat.eqb_refl. reflexivity.
Qed.

Lemma self_subscription_rejected_witness :
  user_exists sample_store 1 = true /\
  subscribe (set_subscriptions sample_store [(1, 1)]) 1 1 =
    (BadRequest400 [self_subscription_error],
     set_subscriptions sample_store [(1, 1)]).
Proof.
  split; [reflexivity|].
  apply (self_subscription_rejected (set_subscriptions sample_store [(1, 1)]) 1).
  reflexivity.
Defined.

Lemma seen_twice_false (seen l : list nat) :
  seen_twice seen l = false -> NoDup l /\ (forall x, In x l -> ~ In x seen).
Proof.
  revert seen. induction l as [|i l IH]; simpl; intros seen Hs.
  - split; [constructor|intros _ []].
  - destruct (existsb (Nat.eqb i) seen) eqn:Hi; [discriminate|].
    destruct (IH (i :: seen) Hs) as [Hnd Hout].
    split.
    + constructor; [|assumption].
      intros Hin. apply (Hout i Hin). now left.
    + intros x [<-|Hx] Hxs.
      * assert (Hc : existsb (Nat.eqb i) seen = true).
        { apply existsb_exists. exists i. split; [assumption|apply Nat.eqb_refl]. }
        congruence.
      * apply (Hout x Hx). now right.
Qed.




Lemma run_validation_ok (db : Store) (partial : bool) (p : RecipePayload) :
  run_validation db partial p = Some [] ->
  field_validation db partial p = Some [] /\ validate p = [].
Proof.
  unfold run_validation.
  destruct (field_validation db partial p) as [[|x xs]|]; intros H;
    try discriminate.
  - inversion H. auto.
Qed.

Lemma field_validation_ingredients (db : Store) (partial : bool)
    (p : RecipePayload) (data : list IngredientEntry) :
  p_ingredients p = Some data -> field_validation db partial p = Some [] ->
  forallb (ingredient_entry_ok db) data = true.
Proof.
  intros Hp Hf. unfold field_validation in Hf. cbv zeta in Hf.
  destruct (image_errors partial (p_image p)); [|discriminate].
  injection Hf as Hf. rewrite Hp in Hf.
  apply app_eq_nil in Hf as [Hf _]. unfold field_errors in Hf.
  destruct (forallb (ingredient_entry_ok db) data); [reflexivity|].
  discriminate.
Qed.

Lemma get_recipe_object_error (db : Store) (user : Caller) (q : ListQuery)
    (rid : nat) (err : Response) :
  get_recipe_object db user q rid = inl err ->
  err = NotFound404 \/ err = BadRequest400 (filterset_errors db q).
Proof.
  unfold get_recipe_object.
  destruct (filtered_recipes db user q) as [qs|]; intros H.
  - destruct (find _ qs); inversion H; auto.
  - inversion H. auto.
Qed.

(** What a 200 of [recipe_update] tells: the recipe was found for the
    request, its author is the user, validation passed, and the store is
    the one [RecipeWriteSerializer.update] writes. *)
Lemma recipe_update_ok (db db' : Store) (user : nat) (q : ListQuery)
    (rid : nat) (partial : bool) (p : RecipePayload) :
  recipe_update db user q rid partial p = (Ok200, db') ->
  exists r, get_recipe_object db (Some user) q rid = inr r /\
    recipe_author r = user /\ run_validation db partial p = Some [] /\
    db' = serializer_update db rid p.
Proof.
  unfold recipe_update.
  destruct (get_recipe_object db (Some user) q rid) as [err|r] eqn:Hg.
  - intros H. inversion H; subst.
    destruct (get_recipe_object_error _ _ _ _ _ Hg); discriminate.
  - destruct (Nat.eqb (recipe_author r) user) eqn:Ha; [|discriminate].
    destruct (run_validation db partial p) as [[|x xs]|] eqn:Hv;
      intros H; inversion H; subst.
    exists r. apply Nat.eqb_eq in Ha. auto.
Qed.

Lemma recipe_rows_after_replace (rows : list IngredientInRecipe) (rid : nat)
    (data : list IngredientEntry) :
  filter (fun r => Nat.eqb (iir_recipe r) rid)
    (filter (fun r => negb (Nat.eqb (iir_recipe r) rid)) rows ++
     map (fun e => mkIngredientInRecipe (entry_id e) rid
                     (Z.to_nat (entry_amount e))) data) =
  map (fun e => mkIngredientInRecipe (entry_id e) rid
                  (Z.to_nat (entry_amount e))) data.
Proof.
  rewrite filter_app.
  replace (filter _ (filter _ rows)) with (@nil IngredientInRecipe).
  - simpl. induction data as [|e data IH]; simpl; [reflexivity|].
    rewrite Nat.eqb_refl, IH. reflexivity.
  - induction rows as [|r rows IH]; simpl; [reflexivity|].
    destruct (Nat.eqb (iir_recipe r) rid) eqn:Hr; simpl; [exact IH|].
    rewrite Hr. exact IH.
Qed.

(** C2: after a successful update whose payload carries [ingredients],
    the IngredientInRecipe rows of the recipe are exactly the submitted
    (ingredient, amount) pairs, one row each, in the submitted order:
    none of the former rows is left and nothing is merged. *)
Theorem update_replaces_ingredients (db db' : Store) (user : nat)
    (q : ListQuery) (rid : nat)
    (partial : bool) (p : RecipePayload) (data : list IngredientEntry)
    (Hp : p_ingredients p = Some data)
    (Hok : recipe_update db user q rid partial p = (Ok200, db')) :
  map (fun pr => (fst pr, Z.of_nat (snd pr))) (recipe_ingredient_pairs db' rid) =
    map (fun e => (entry_id e, entry_amount e)) data /\
  List.length (recipe_ingredient_pairs db' rid) = List.length data.
Proof.
  apply recipe_update_ok in Hok as [r [_ [_ [Hv ->]]]].
  apply run_validation_ok in Hv as [Hf _].
  pose proof (field_validation_ingredients db partial p data Hp Hf) as Hall.
  unfold serializer_update. rewrite Hp.
  unfold recipe_ingredient_pairs, create_ingredients, clear_ingredients.
  cbn [ingredient_in_recipe set_ingredient_in_recipe].
  replace (ingredient_in_recipe (match p_tags p with
                                 | Some ts => set_tags _ rid ts
                                 | None => _ end))
    with (ingredient_in_recipe db) by (destruct (p_tags p); reflexivity).
  rewrite recipe_rows_after_replace, !map_map, !length_map.
  split; [|reflexivity].
  apply map_ext_in. intros e He. cbn. f_equal.
  rewrite forallb_forall in Hall. specialize (Hall e He).
  unfold ingredient_entry_ok, integer_field_ok, MIN_VALUE in Hall.
  repeat rewrite andb_true_iff in Hall.
  destruct Hall as [[_ [Hb _]] _]. apply Z.leb_le in Hb.
  apply Z2Nat.id. lia.
Qed.

(** The recipe 10 of [sample_store] (author 2) gets the ingredients of
    [full_payload] in place of flour and eggs. *)
Lemma update_replaces_ingredients_witness :
  recipe_update sample_store 2 no_query 10 true full_payload =
    (Ok200, serializer_update sample_store 10 full_payload) /\
  map (fun pr => (fst pr, Z.of_nat (snd pr)))
    (recipe_ingredient_pairs (serializer_update sample_store 10 full_payload) 10) =
    [(2, 7%Z)] /\
  List.length (recipe_ingredient_pairs
                 (serializer_update sample_store 10 full_payload) 10) = 1.
Proof.
  assert (H : recipe_update sample_store 2 no_query 10 true full_payload =
              (Ok200, serializer_update sample_store 10 full_payload))
    by (vm_compute; reflexivity).
  split; [exact H|].
  exact (update_replaces_ingredients sample_store _ 2 no_query 10 true full_payload
           [mkIngredientEntry 2 7%Z] eq_refl H).
Defined.





Lemma row_exists_count (rel : list (nat * nat)) (u t : nat) :
  row_exists rel u t = negb (Nat.eqb (pair_count rel u t) 0).
Proof.
  unfold row_exists, pair_count. induction rel as [|x rel IH]; simpl.
  - reflexivity.
  - destruct (pair_eqb (u, t) x); simpl; [reflexivity|exact IH].
Qed.

Lemma pair_count_snoc (rel : list (nat * nat)) (u t : nat) :
  pair_count (rel ++ [(u, t)]) u t = pair_count rel u t + 1.
Proof.
  unfold pair_count. rewrite filter_app, length_app. simpl.
  unfold pair_eqb. simpl. rewrite !Nat.eqb_refl. reflexivity.
Qed.

Lemma pair_count_delete (rel : list (nat * nat)) (u t : nat) :
  pair_count (delete_rows rel u t) u t = 0.
Proof.
  unfold pair_count, delete_rows. induction rel as [|x rel IH]; simpl.
  - reflexivity.
  - destruct (pair_eqb (u, t) x) eqn:Hx; simpl; [exact IH|].
    rewrite Hx. exact IH.
Qed.

(** Case split on [get_object], naming the error of its failure. *)
Ltac destruct_get_object :=
  match goal with
  | |- context [get_recipe_object ?db ?u ?q ?t] =>
      let Hg := fresh "Hg" in
      let err := fresh "err" in
      destruct (get_recipe_object db u q t) as [err|?r] eqn:Hg;
      [destruct (get_recipe_object_error _ _ _ _ _ Hg) as [->| ->]|]
  end.





Lemma get_queryset_no_flags (db : Store) (user : Caller) (ts : list string) :
  get_queryset db user (tags_query ts) = recipes db.
Proof. destruct user; reflexivity. Qed.

(** C9, counterexample: recipe 10 is tagged breakfast, yet the query
    [tags=breakfast&tags=brunch] does not list it: "brunch" names no tag,
    and the filterset's form refuses the request. *)
Lemma unknown_tag_slug_refused :
  recipe_has_slug sample_store (mkRecipe 10 2 "Pancakes" "Mix and fry." 15)
    "breakfast" = true /\
  recipe_list sample_store None
    (tags_query ["breakfast"%string; "brunch"%string]) = None.
Proof. split; vm_compute; reflexivity. Qed.

(** C9, as the code has it: for a non-empty list of tag slugs given as the
    only filter, the request is refused when a slug names no tag, and
    otherwise lists exactly the recipes linked to at least one of the
    slugs (OR), in the order of the recipe table. *)
Theorem tags_filter_or_semantics (db : Store) (user : Caller)
    (ts : list string) (Hne : ts <> []) :
  recipe_list db user (tags_query ts) =
    if forallb (slug_exists db) ts
    then Some (map recipe_id
                 (filter (fun r => existsb (recipe_has_slug db r) ts)
                    (recipes db)))
    else None.
Proof.
  unfold recipe_list, filtered_recipes, filterset_valid.
  cbn [q_author q_tags tags_query].
  destruct (forallb (slug_exists db) ts); [|reflexivity].
  rewrite get_queryset_no_flags.
  cbn [q_is_favorited q_is_in_shopping_cart q_author q_tags tags_query
       boolean_widget filter_by_relation filter_author].
  destruct ts as [|s ts']; [contradiction|reflexivity].
Qed.

Lemma tags_filter_or_semantics_witness :
  ["breakfast"%string; "dinner"%string] <> [] /\
  recipe_list sample_store (Some 1)
    (tags_query ["breakfast"%string; "dinner"%string]) = Some [10; 11].
Proof.
  assert (Hne : ["breakfast"%string; "dinner"%string] <> []) by discriminate.
  split; [exact Hne|].
  rewrite (tags_filter_or_semantics sample_store (Some 1) _ Hne).
  vm_compute. reflexivity.
Defined.

(* ------------------------------------------------------------------ *)
(** * Further properties of the code *)

(** The shopping list of a user whose cart is empty is the empty text. *)
Theorem download_empty_cart (db : Store) (u : nat)
    (Hempty : cart_recipe_ids db u = []) :
  download_shopping_cart db u = EmptyString.
Proof.
  unfold download_shopping_cart, cart_rows. rewrite Hempty. simpl.
  induction (ingredient_in_recipe db) as [|r rows IH]; simpl; [reflexivity|].
  exact IH.
Qed.

Lemma download_empty_cart_witness :
  cart_recipe_ids sample_store 2 = [] /\
  download_shopping_cart sample_store 2 = EmptyString.
Proof.
  assert (H : cart_recipe_ids sample_store 2 = []) by reflexivity.
  split; [exact H|]. exact (download_empty_cart sample_store 2 H).
Defined.

(** The shopping list of a user depends only on the ingredients, the
    IngredientInRecipe rows and that user's own cart rows: the carts of
    other users, favorites, subscriptions and tags do not change it. *)
Theorem download_depends_on_own_cart (db1 db2 : Store) (u : nat)
    (Hing : ingredients db1 = ingredients db2)
    (Hiir : ingredient_in_recipe db1 = ingredient_in_recipe db2)
    (Hcart : filter (fun p => Nat.eqb (fst p) u) (shopping_cart db1) =
             filter (fun p => Nat.eqb (fst p) u) (shopping_cart db2)) :
  download_shopping_cart db1 u = download_shopping_cart db2 u.
Proof.
  unfold download_shopping_cart, cart_rows, cart_recipe_ids, find_ingredient.
  rewrite Hing, Hiir, Hcart. reflexivity.
Qed.

Lemma download_depends_on_own_cart_witness :
  download_shopping_cart (set_shopping_cart sample_store [(2, 11); (1, 10); (1, 11)]) 1
  = download_shopping_cart sample_store 1.
Proof.
  apply download_depends_on_own_cart; reflexivity.
Defined.

Lemma row_exists_snoc (rel : list (nat * nat)) (u t : nat) :
  row_exists (rel ++ [(u, t)]) u t = true.
Proof.
  rewrite row_exists_count, pair_count_snoc. rewrite Nat.add_comm. reflexivity.
Qed.

Lemma row_exists_delete (rel : list (nat * nat)) (u t : nat) :
  row_exists (delete_rows rel u t) u t = false.
Proof. rewrite row_exists_count, pair_count_delete. reflexivity. Qed.

(** After a successful add the read-side field of the pair
    ([is_favorited], [is_in_shopping_cart], [is_subscribed]) is [true] for
    that user, after a successful remove it is [false], and for the
    anonymous user it is always [false]. *)
Theorem relation_flag_follows_toggles (rel : Relation) (db : Store)
    (u : nat) (q : ListQuery) (t : nat) :
  relation_flag rel db None t = false /\
  (fst (relation_add rel db u q t) = Created201 ->
   relation_flag rel (snd (relation_add rel db u q t)) (Some u) t = true) /\
  (fst (relation_remove rel db u q t) = NoContent204 ->
   relation_flag rel (snd (relation_remove rel db u q t)) (Some u) t = false).
Proof.
  destruct rel; simpl;
  [unfold add_to_favorite, remove_from_favorite
  |unfold add_to_shopping_cart, remove_from_shopping_cart
  |unfold subscribe, unsubscribe];
  (split; [reflexivity|split]);
  repeat first [destruct_get_object
               | match goal with
                 | |- context [if ?b then _ else _] => destruct b
                 end]; simpl; intros H; try discriminate;
  first [apply row_exists_snoc | apply row_exists_delete].
Qed.

Lemma relation_flag_follows_toggles_witness :
  fst (relation_add FavoriteRel sample_store 1 no_query 10) = Created201 /\
  relation_flag FavoriteRel
    (snd (relation_add FavoriteRel sample_store 1 no_query 10)) (Some 1) 10
    = true.
Proof.
  assert (H : fst (relation_add FavoriteRel sample_store 1 no_query 10) = Created201)
    by (vm_compute; reflexivity).
  split; [exact H|].
  exact (proj1 (proj2 (relation_flag_follows_toggles FavoriteRel sample_store
                         1 no_query 10)) H).
Defined.

Lemma delete_snoc_absent (rel : list (nat * nat)) (u t : nat) :
  pair_count rel u t = 0 -> delete_rows (rel ++ [(u, t)]) u t = rel.
Proof.
  unfold pair_count, delete_rows. induction rel as [|x rel IH]; simpl; intros Hc.
  - unfold pair_eqb. simpl. rewrite !Nat.eqb_refl. reflexivity.
  - destruct (pair_eqb (u, t) x); simpl in *; [discriminate|].
    rewrite IH by assumption. reflexivity.
Qed.

(** Without query parameters [get_object] is [get_object_or_404] on the
    whole recipe table. *)
Lemma get_recipe_object_no_query (db : Store) (user : Caller) (t : nat) :
  get_recipe_object db user no_query t =
    match find_recipe db t with
    | Some r => inr r
    | None => inl NotFound404
    end.
Proof. destruct user; reflexivity. Qed.

Lemma recipe_exists_find (db : Store) (t : nat) :
  recipe_exists db t = true -> exists r, find_recipe db t = Some r.
Proof.
  unfold recipe_exists, find_recipe.
  induction (recipes db) as [|x l IH]; simpl; [discriminate|].
  destruct (Nat.eqb (recipe_id x) t); [eauto|exact IH].
Qed.

Lemma find_recipe_set_favorites (db : Store) (l : list (nat * nat)) (t : nat) :
  find_recipe (set_favorites db l) t = find_recipe db t.
Proof. reflexivity. Qed.

Lemma find_recipe_set_shopping_cart (db : Store) (l : list (nat * nat)) (t : nat) :
  find_recipe (set_shopping_cart db l) t = find_recipe db t.
Proof. reflexivity. Qed.

Lemma user_exists_set_subscriptions (db : Store) (l : list (nat * nat)) (t : nat) :
  user_exists (set_subscriptions db l) t = user_exists db t.
Proof. reflexivity. Qed.

(** Adding a pair that is absent and then removing it, both requests
    without query parameters, gives back the store as it was, for each of
    the three relations (for a subscription, to an existing author other
    than the user). *)
Theorem toggle_add_remove_roundtrip (rel : Relation) (db : Store) (u t : nat)
    (Ht : target_exists rel db t = true)
    (Hself : rel = SubscriptionRel -> u <> t)
    (Habsent : pair_count (relation_rows rel db) u t = 0) :
  snd (relation_remove rel (snd (relation_add rel db u no_query t)) u no_query t)
    = db.
Proof.
  destruct rel; simpl in Ht, Habsent |- *.
  - destruct (recipe_exists_find db t Ht) as [r Hr].
    unfold add_to_favorite, remove_from_favorite.
    rewrite !get_recipe_object_no_query, Hr, row_exists_count, Habsent.
    cbn [negb fst snd Nat.eqb].
    rewrite find_recipe_set_favorites, Hr. cbn [negb favorites set_favorites].
    rewrite row_exists_snoc. cbn [negb snd favorites set_favorites].
    rewrite delete_snoc_absent by assumption. destruct db; reflexivity.
  - destruct (recipe_exists_find db t Ht) as [r Hr].
    unfold add_to_shopping_cart, remove_from_shopping_cart.
    rewrite !get_recipe_object_no_query, Hr, row_exists_count, Habsent.
    cbn [negb fst snd Nat.eqb].
    rewrite find_recipe_set_shopping_cart, Hr.
    cbn [negb shopping_cart set_shopping_cart].
    rewrite row_exists_snoc. cbn [negb snd shopping_cart set_shopping_cart].
    rewrite delete_snoc_absent by assumption. destruct db; reflexivity.
  - assert (Hne : Nat.eqb u t = false)
      by (apply Nat.eqb_neq; now apply Hself).
    unfold subscribe, unsubscribe.
    rewrite Ht, Hne, row_exists_count, Habsent. cbn [negb fst snd Nat.eqb].
    rewrite user_exists_set_subscriptions, Ht.
    cbn [negb subscriptions set_subscriptions].
    rewrite row_exists_snoc. cbn [negb snd subscriptions set_subscriptions].
    rewrite delete_snoc_absent by assumption. destruct db; reflexivity.
Qed.

Lemma toggle_add_remove_roundtrip_witness :
  target_exists ShoppingCartRel sample_store 10 = true /\
  (ShoppingCartRel = SubscriptionRel -> 2 <> 10) /\
  pair_count (relation_rows ShoppingCartRel sample_store) 2 10 = 0 /\
  snd (relation_remove ShoppingCartRel
         (snd (relation_add ShoppingCartRel sample_store 2 no_query 10))
         2 no_query 10)
    = sample_store.
Proof.
  assert (Ht : target_exists ShoppingCartRel sample_store 10 = true)
    by reflexivity.
  assert (Hs : ShoppingCartRel = SubscriptionRel -> 2 <> 10)
    by discriminate.
  assert (Ha : pair_count (relation_rows ShoppingCartRel sample_store) 2 10 = 0)
    by reflexivity.
  split; [exact Ht|]. split; [exact Hs|]. split; [exact Ha|].
  exact (toggle_add_remove_roundtrip ShoppingCartRel sample_store 2 10 Ht Hs Ha).
Defined.

Lemma find_none_intro {A} (f : A -> bool) (l : list A) :
  (forall x, In x l -> f x = false) -> find f l = None.
Proof.
  induction l as [|x l IH]; simpl; intros H; [reflexivity|].
  rewrite (H x (or_introl eq_refl)). apply IH. auto.
Qed.

Lemma filter_by_relation_incl (rel : list (nat * nat)) (user : Caller)
    (b : option bool) (qs : list Recipe) (x : Recipe) :
  In x (filter_by_relation rel user b qs) -> In x qs.
Proof.
  unfold filter_by_relation.
  destruct b as [[|]|], user; auto. intros H. apply filter_In in H. tauto.
Qed.

Lemma get_recipe_object_in (db : Store) (user : Caller) (q : ListQuery)
    (rid : nat) (r : Recipe) :
  get_recipe_object db user q rid = inr r ->
  exists qs, filtered_recipes db user q = Some qs /\ In r qs /\
             recipe_id r = rid.
Proof.
  unfold get_recipe_object.
  destruct (filtered_recipes db user q) as [qs|]; [|discriminate].
  destruct (find (fun r => Nat.eqb (recipe_id r) rid) qs) eqn:Hf;
    intros H; inversion H; subst.
  exists qs. split; [reflexivity|].
  apply find_some in Hf as [Hin Heq]. apply Nat.eqb_eq in Heq. auto.
Qed.

Lemma pair_count_snoc_other (rel : list (nat * nat)) (u t u' t' : nat) :
  (u', t') <> (u, t) -> pair_count (rel ++ [(u, t)]) u' t' = pair_count rel u' t'.
Proof.
  intros Hne. unfold pair_count. rewrite filter_app, length_app. simpl.
  unfold pair_eqb. simpl.
  destruct (Nat.eqb u' u) eqn:H1, (Nat.eqb t' t) eqn:H2; simpl; try lia.
  apply Nat.eqb_eq in H1, H2. subst. contradiction.
Qed.

Lemma pair_count_delete_other (rel : list (nat * nat)) (u t u' t' : nat) :
  (u', t') <> (u, t) ->
  pair_count (delete_rows rel u t) u' t' = pair_count rel u' t'.
Proof.
  intros Hne. unfold pair_count, delete_rows.
  induction rel as [|x rel IH]; simpl; [reflexivity|].
  destruct (pair_eqb (u, t) x) eqn:Hx; simpl.
  - assert (Hx' : pair_eqb (u', t') x = false).
    { destruct x as [a b]. unfold pair_eqb in *. simpl in *.
      apply andb_true_iff in Hx as [H1 H2].
      apply Nat.eqb_eq in H1, H2. rewrite <- H1, <- H2.
      destruct (Nat.eqb u' u) eqn:E1, (Nat.eqb t' t) eqn:E2; simpl;
        try reflexivity.
      apply Nat.eqb_eq in E1, E2. rewrite E1, E2 in Hne. contradiction. }
    rewrite Hx'. exact IH.
  - destruct (pair_eqb (u', t') x); simpl; rewrite IH; reflexivity.
Qed.

(** An add or a remove of one (user, target) pair leaves the number of
    rows of every other pair of the same relation as it was, whatever its
    outcome. *)
Theorem toggle_frame (rel : Relation) (db : Store) (u : nat) (q : ListQuery)
    (t u' t' : nat) (Hother : (u', t') <> (u, t)) :
  pair_count (relation_rows rel (snd (relation_add rel db u q t))) u' t' =
    pair_count (relation_rows rel db) u' t' /\
  pair_count (relation_rows rel (snd (relation_remove rel db u q t))) u' t' =
    pair_count (relation_rows rel db) u' t'.
Proof.
  destruct rel; simpl;
  [unfold add_to_favorite, remove_from_favorite
  |unfold add_to_shopping_cart, remove_from_shopping_cart
  |unfold subscribe, unsubscribe];
  split;
  repeat first [destruct_get_object
               | match goal with
                 | |- context [if ?b then _ else _] => destruct b
                 end]; simpl; try reflexivity;
  first [apply pair_count_snoc_other | apply pair_count_delete_other];
  assumption.
Qed.

Lemma toggle_frame_witness :
  ((1, 11) <> (1, 10)) /\
  pair_count (relation_rows ShoppingCartRel
                (snd (relation_remove ShoppingCartRel sample_store 1 no_query 10)))
      1 11 =
    pair_count (relation_rows ShoppingCartRel sample_store) 1 11.
Proof.
  assert (Hne : (1, 11) <> (1, 10)) by discriminate.
  split; [exact Hne|].
  exact (proj2 (toggle_frame ShoppingCartRel sample_store 1 no_query 10 1 11 Hne)).
Defined.

Lemma field_error_reported (db : Store) (partial : bool) (p : RecipePayload)
    (f : string) (L : list string) :
  field_validation db partial p = Some L -> In f L ->
  exists errs, run_validation db partial p = Some errs /\ In f errs.
Proof.
  intros HF Hin. unfold run_validation. rewrite HF.
  destruct L as [|x xs]; [destruct Hin|].
  eexists. split; [reflexivity|exact Hin].
Qed.

Lemma ingredients_check_fails (db : Store) (partial : bool) (p : RecipePayload)
    (data : list IngredientEntry) (Himg : image_raises p = false) :
  p_ingredients p = Some data ->
  (forallb (ingredient_entry_ok db) data && validate_ingredients data) = false ->
  exists errs, run_validation db partial p = Some errs /\
               In "ingredients"%string errs.
Proof.
  intros Hp Hf. destruct (image_errors_ok partial p Himg) as [e [He _]].
  eapply field_error_reported.
  - unfold field_validation. cbv zeta. rewrite He. reflexivity.
  - rewrite Hp. apply in_app_iff. left.
    unfold field_errors. rewrite Hf. now left.
Qed.

Lemma tags_check_fails (db : Store) (partial : bool) (p : RecipePayload)
    (ts : list nat) (Himg : image_raises p = false) :
  p_tags p = Some ts ->
  (forallb (tag_exists db) ts && validate_tags ts) = false ->
  exists errs, run_validation db partial p = Some errs /\ In "tags"%string errs.
Proof.
  intros Hp Hf. destruct (image_errors_ok partial p Himg) as [e [He _]].
  eapply field_error_reported.
  - unfold field_validation. cbv zeta. rewrite He. reflexivity.
  - rewrite Hp. apply in_app_iff. right.
    apply in_app_iff. left. unfold field_errors. rewrite Hf. now left.
Qed.

(** On create and update alike, once the image field has not raised, an
    empty [ingredients] list is reported on [ingredients], and an empty or
    repeating [tags] list on [tags]. *)
Theorem empty_or_repeated_lists_rejected (db : Store) (partial : bool)
    (p : RecipePayload) (Himg : image_raises p = false) :
  (p_ingredients p = Some [] ->
   exists errs, run_validation db partial p = Some errs /\
                In "ingredients"%string errs) /\
  (forall ts, p_tags p = Some ts -> ts = [] \/ ~ NoDup ts ->
   exists errs, run_validation db partial p = Some errs /\
                In "tags"%string errs).
Proof.
  split.
  - intros Hp. apply (ingredients_check_fails db partial p [] Himg); [exact Hp|].
    reflexivity.
  - intros ts Hp Hbad. apply (tags_check_fails db partial p ts Himg); [exact Hp|].
    apply andb_false_iff. right. unfold validate_tags.
    destruct ts as [|x xs]; [reflexivity|].
    destruct Hbad as [Hbad|Hbad]; [discriminate|].
    destruct (seen_twice [] (x :: xs)) eqn:Hs; [reflexivity|].
    exfalso. apply Hbad. exact (proj1 (seen_twice_false [] _ Hs)).
Qed.

Lemma empty_or_repeated_lists_rejected_witness :
  image_raises (mkRecipePayload (Some [mkIngredientEntry 1 5%Z]) (Some [1; 1])
                  None None None None) = false /\
  exists errs,
    run_validation sample_store false
      (mkRecipePayload (Some [mkIngredientEntry 1 5%Z]) (Some [1; 1])
         None None None None) = Some errs /\ In "tags"%string errs.
Proof.
  assert (Himg : image_raises (mkRecipePayload (Some [mkIngredientEntry 1 5%Z])
                   (Some [1; 1]) None None None None) = false) by reflexivity.
  split; [exact Himg|].
  apply (proj2 (empty_or_repeated_lists_rejected sample_store false _ Himg) [1; 1]).
  - reflexivity.
  - right. intros H. inversion H as [|? ? Hn _]. apply Hn. now left.
Defined.

(** An ingredient entry naming no existing ingredient, or with an amount
    outside [1, 32000], is reported on [ingredients], once the image field
    has not raised. *)
Theorem bad_ingredient_entry_rejected (db : Store) (partial : bool)
    (p : RecipePayload) (data : list IngredientEntry) (e : IngredientEntry)
    (Himg : image_raises p = false)
    (Hp : p_ingredients p = Some data) (He : In e data)
    (Hbad : ingredient_exists db (entry_id e) = false \/
            (entry_amount e < 1)%Z \/ (32000 < entry_amount e)%Z) :
  exists errs, run_validation db partial p = Some errs /\
               In "ingredients"%string errs.
Proof.
  apply (ingredients_check_fails db partial p data Himg Hp).
  apply andb_false_iff. left.
  destruct (forallb (ingredient_entry_ok db) data) eqn:Hall; [|reflexivity].
  rewrite forallb_forall in Hall. specialize (Hall e He).
  unfold ingredient_entry_ok, integer_field_ok, MIN_VALUE, MAX_VALUE in Hall.
  repeat rewrite andb_true_iff in Hall.
  destruct Hall as [[Hex [Hlo Hhi]] _].
  apply Z.leb_le in Hlo. apply Z.leb_le in Hhi.
  destruct Hbad as [Hb|[Hb|Hb]]; [congruence|lia|lia].
Qed.

Lemma bad_ingredient_entry_rejected_witness :
  image_raises (mkRecipePayload (Some [mkIngredientEntry 1 0%Z]) (Some [1])
                  None None None None) = false /\
  exists errs,
    run_validation sample_store true
      (mkRecipePayload (Some [mkIngredientEntry 1 0%Z]) (Some [1])
         None None None None) = Some errs /\ In "ingredients"%string errs.
Proof.
  assert (Himg : image_raises (mkRecipePayload (Some [mkIngredientEntry 1 0%Z])
                   (Some [1]) None None None None) = false) by reflexivity.
  split; [exact Himg|].
  apply (bad_ingredient_entry_rejected sample_store true _
           [mkIngredientEntry 1 0%Z] (mkIngredientEntry 1 0%Z) Himg).
  - reflexivity.
  - now left.
  - right. left. simpl. lia.
Defined.

Lemma fold_max_bound (l : list nat) (x : nat) :
  In x l -> x <= fold_right Nat.max 0 l.
Proof.
  induction l as [|y l IH]; simpl; [intros []|].
  intros [<-|Hx]; [lia|]. specialize (IH Hx). lia.
Qed.

Lemma next_recipe_id_fresh (db : Store) :
  recipe_exists db (next_recipe_id db) = false.
Proof.
  unfold recipe_exists, next_recipe_id.
  apply Bool.not_true_iff_false. intros H.
  apply existsb_exists in H as [r [Hr Heq]]. apply Nat.eqb_eq in Heq.
  pose proof (fold_max_bound (map recipe_id (recipes db)) (recipe_id r)
                (in_map recipe_id _ _ Hr)). lia.
Qed.

Lemma filter_fresh_nil {A} (f : A -> nat) (l : list A) (rid : nat) :
  (forall x, In x l -> f x <> rid) ->
  filter (fun x => Nat.eqb (f x) rid) l = [].
Proof.
  induction l as [|x l IH]; simpl; intros H; [reflexivity|].
  destruct (Nat.eqb (f x) rid) eqn:Hx.
  - apply Nat.eqb_eq in Hx. exfalso. apply (H x); [now left|exact Hx].
  - apply IH. intros y Hy. apply H. now right.
Qed.

Lemma filter_all_eq {A} (f : A -> nat) (l : list A) (rid : nat) :
  (forall x, In x l -> f x = rid) ->
  filter (fun x => Nat.eqb (f x) rid) l = l.
Proof.
  induction l as [|x l IH]; simpl; intros H; [reflexivity|].
  rewrite (proj2 (Nat.eqb_eq _ _) (H x (or_introl eq_refl))).
  f_equal. apply IH. intros y Hy. apply H. now right.
Qed.

Lemma filter_eq_after_neq {A} (f : A -> nat) (l : list A) (rid rid' : nat) :
  rid' <> rid ->
  filter (fun x => Nat.eqb (f x) rid')
    (filter (fun x => negb (Nat.eqb (f x) rid)) l) =
  filter (fun x => Nat.eqb (f x) rid') l.
Proof.
  intros Hne. induction l as [|x l IH]; simpl; [reflexivity|].
  destruct (Nat.eqb (f x) rid) eqn:H1; simpl.
  - apply Nat.eqb_eq in H1. rewrite H1.
    rewrite (proj2 (Nat.eqb_neq rid rid')) by congruence. exact IH.
  - destruct (Nat.eqb (f x) rid'); [f_equal|]; exact IH.
Qed.

Lemma recipe_tag_ids_set_tags (db : Store) (rid : nat) (ts : list nat) :
  recipe_tag_ids (set_tags db rid ts) rid = ts.
Proof.
  unfold recipe_tag_ids, set_tags. cbn [recipe_tags set_recipe_tags].
  rewrite filter_app.
  replace (filter _ (filter _ (recipe_tags db))) with (@nil (nat * nat)).
  - simpl. induction ts as [|t ts IH]; simpl; [reflexivity|].
    rewrite Nat.eqb_refl. simpl. f_equal. exact IH.
  - induction (recipe_tags db) as [|x l IH]; simpl; [reflexivity|].
    destruct (Nat.eqb (fst x) rid) eqn:Hx; simpl; [exact IH|].
    rewrite Hx. exact IH.
Qed.

Lemma recipe_exists_In (db : Store) (rid : nat) :
  recipe_exists db rid = false -> forall r, In r (recipes db) -> recipe_id r <> rid.
Proof.
  intros H r Hr Heq. unfold recipe_exists in H.
  assert (existsb (fun r0 => Nat.eqb (recipe_id r0) rid) (recipes db) = true).
  { apply existsb_exists. exists r. split; [exact Hr|]. now apply Nat.eqb_eq. }
  congruence.
Qed.

(** A create either writes nothing and answers 500 (the image field
    raised) or 400, or answers 201 and
    adds a recipe under a fresh id, by the requesting user, whose
    IngredientInRecipe rows are exactly the submitted (ingredient, amount)
    pairs and whose tags are exactly the submitted tags (the foreign keys
    of the store holding). *)
Theorem create_writes_submitted_recipe (db : Store) (user : nat)
    (p : RecipePayload) (Hfk : store_fk_ok db = true) :
  (image_raises p = true /\ recipe_create db user p = (ServerError500, db)) \/
  (exists errs, recipe_create db user p = (BadRequest400 errs, db)) \/
  (exists data ts,
     p_ingredients p = Some data /\ p_tags p = Some ts /\
     fst (recipe_create db user p) = Created201 /\
     recipe_exists db (next_recipe_id db) = false /\
     option_map recipe_author
       (find_recipe (snd (recipe_create db user p)) (next_recipe_id db))
       = Some user /\
     map (fun pr => (fst pr, Z.of_nat (snd pr)))
       (recipe_ingredient_pairs (snd (recipe_create db user p))
          (next_recipe_id db)) =
       map (fun e => (entry_id e, entry_amount e)) data /\
     recipe_tag_ids (snd (recipe_create db user p)) (next_recipe_id db) = ts).
Proof.
  unfold recipe_create.
  destruct (run_validation db false p) as [[|e es]|] eqn:Hv.
  3: { left. split; [|reflexivity].
       destruct (image_raises p) eqn:Hi; [reflexivity|].
       destruct (run_validation_some db false p Hi) as [x Hx]. congruence. }
  2: { right. left. now exists (e :: es). }
  right. right.
  pose proof (run_validation_ok _ _ _ Hv) as [Hf Hval].
  unfold validate in Hval.
  destruct (p_ingredients p) as [data|] eqn:Hi; [|discriminate].
  destruct (p_tags p) as [ts|] eqn:Ht; [|discriminate].
  pose proof (field_validation_ingredients db false p data Hi Hf) as Hall.
  pose proof (next_recipe_id_fresh db) as Hfresh.
  set (rid := next_recipe_id db) in *.
  exists data, ts. cbn [fst snd].
  unfold serializer_create. fold rid. rewrite Hi, Ht. cbn [opt_default snd].
  unfold store_fk_ok in Hfk. apply andb_true_iff in Hfk as [Hfk1 Hfk2].
  rewrite forallb_forall in Hfk1, Hfk2.
  repeat split; try reflexivity; try exact Hfresh.
  - unfold find_recipe. simpl. rewrite Nat.eqb_refl. reflexivity.
  - unfold recipe_ingredient_pairs, create_ingredients.
    cbn [ingredient_in_recipe set_ingredient_in_recipe set_tags set_recipe_tags
         set_recipes].
    rewrite filter_app, (filter_fresh_nil iir_recipe).
    + rewrite filter_all_eq by (intros x Hx; apply in_map_iff in Hx as [e [<- _]];
                               reflexivity).
      simpl. rewrite !map_map. apply map_ext_in. intros e He. cbn. f_equal.
      rewrite forallb_forall in Hall. specialize (Hall e He).
      unfold ingredient_entry_ok, integer_field_ok, MIN_VALUE in Hall.
      repeat rewrite andb_true_iff in Hall.
      destruct Hall as [[_ [Hb _]] _]. apply Z.leb_le in Hb.
      apply Z2Nat.id. lia.
    + intros r Hr Heq. specialize (Hfk1 r Hr).
      rewrite Heq in Hfk1. congruence.
  - unfold create_ingredients. cbn [recipe_tags set_ingredient_in_recipe].
    apply recipe_tag_ids_set_tags.
Qed.

Lemma create_writes_submitted_recipe_witness :
  store_fk_ok sample_store = true /\
  ((image_raises full_payload = true /\
    recipe_create sample_store 1 full_payload = (ServerError500, sample_store)) \/
   (exists errs, recipe_create sample_store 1 full_payload =
                 (BadRequest400 errs, sample_store)) \/
   (exists data ts,
      p_ingredients full_payload = Some data /\ p_tags full_payload = Some ts /\
      fst (recipe_create sample_store 1 full_payload) = Created201 /\
      recipe_exists sample_store (next_recipe_id sample_store) = false /\
      option_map recipe_author
        (find_recipe (snd (recipe_create sample_store 1 full_payload))
           (next_recipe_id sample_store)) = Some 1 /\
      map (fun pr => (fst pr, Z.of_nat (snd pr)))
        (recipe_ingredient_pairs (snd (recipe_create sample_store 1 full_payload))
           (next_recipe_id sample_store)) =
        map (fun e => (entry_id e, entry_amount e)) data /\
      recipe_tag_ids (snd (recipe_create sample_store 1 full_payload))
        (next_recipe_id sample_store) = ts)).
Proof.
  assert (H : store_fk_ok sample_store = true) by reflexivity.
  split; [exact H|]. exact (create_writes_submitted_recipe sample_store 1 full_payload H).
Defined.

Lemma find_map_same_id (upd : Recipe -> Recipe) (l : list Recipe) (rid : nat) :
  (forall r, recipe_id (upd r) = recipe_id r) ->
  find (fun r => Nat.eqb (recipe_id r) rid) (map upd l) =
  option_map upd (find (fun r => Nat.eqb (recipe_id r) rid) l).
Proof.
  intros Hid. induction l as [|r l IH]; simpl; [reflexivity|].
  rewrite Hid. destruct (Nat.eqb (recipe_id r) rid); [reflexivity|exact IH].
Qed.

Lemma update_row_id (rid : nat) (p : RecipePayload) (r : Recipe) :
  recipe_id (update_row rid p r) = recipe_id r.
Proof. unfold update_row. destruct (Nat.eqb (recipe_id r) rid); reflexivity. Qed.

Lemma serializer_update_recipes (db : Store) (rid : nat) (p : RecipePayload) :
  recipes (serializer_update db rid p) = map (update_row rid p) (recipes db).
Proof.
  unfold serializer_update.
  destruct (p_tags p), (p_ingredients p); reflexivity.
Qed.

(** A successful update keeps the recipe's id and author, takes [name]
    and [text] from the payload, with the surrounding whitespace stripped
    by the CharField, and [cooking_time] from the payload where they are
    given, and keeps their former values where they are not. *)
Theorem update_sets_given_fields (db db' : Store) (user : nat) (q : ListQuery)
    (rid : nat) (partial : bool) (p : RecipePayload) (r : Recipe)
    (Hr : find_recipe db rid = Some r)
    (Hok : recipe_update db user q rid partial p = (Ok200, db')) :
  exists r', find_recipe db' rid = Some r' /\
    recipe_id r' = rid /\ recipe_author r' = recipe_author r /\
    recipe_name r' = opt_default (cleaned (p_name p)) (recipe_name r) /\
    recipe_text r' = opt_default (cleaned (p_text p)) (recipe_text r) /\
    cooking_time r' = match p_cooking_time p with
                      | Some c => Z.to_nat c
                      | None => cooking_time r
                      end.
Proof.
  apply recipe_update_ok in Hok as [r0 [_ [_ [_ ->]]]].
  pose proof Hr as Hr'. unfold find_recipe in Hr'.
  apply find_some in Hr' as [_ Hid]. apply Nat.eqb_eq in Hid.
  exists (apply_attrs r p).
  unfold find_recipe. rewrite serializer_update_recipes.
  rewrite find_map_same_id by apply update_row_id.
  fold (find_recipe db rid). rewrite Hr. cbn [option_map].
  unfold update_row. rewrite Hid, Nat.eqb_refl.
  repeat split; simpl; congruence.
Qed.

(** [padded_payload] sets the name " Crepes " and the text "Whisk. ". *)
Lemma update_sets_given_fields_witness :
  find_recipe sample_store 10 = Some (mkRecipe 10 2 "Pancakes" "Mix and fry." 15) /\
  recipe_update sample_store 2 no_query 10 true padded_payload =
    (Ok200, serializer_update sample_store 10 padded_payload) /\
  exists r', find_recipe (serializer_update sample_store 10 padded_payload) 10
               = Some r' /\
    recipe_id r' = 10 /\ recipe_author r' = 2 /\
    recipe_name r' = "Crepes"%string /\ recipe_text r' = "Whisk."%string /\
    cooking_time r' = 10.
Proof.
  assert (Hr : find_recipe sample_store 10 =
               Some (mkRecipe 10 2 "Pancakes" "Mix and fry." 15)) by reflexivity.
  assert (Hok : recipe_update sample_store 2 no_query 10 true padded_payload =
                (Ok200, serializer_update sample_store 10 padded_payload))
    by (vm_compute; reflexivity).
  split; [exact Hr|]. split; [exact Hok|].
  exact (update_sets_given_fields sample_store _ 2 no_query 10 true
           padded_payload _ Hr Hok).
Defined.

(** After a successful update whose payload carries [tags], the tags of the
    recipe are exactly the submitted ones. *)
Theorem update_replaces_tags (db db' : Store) (user : nat) (q : ListQuery)
    (rid : nat) (partial : bool) (p : RecipePayload) (ts : list nat)
    (Hp : p_tags p = Some ts)
    (Hok : recipe_update db user q rid partial p = (Ok200, db')) :
  recipe_tag_ids db' rid = ts.
Proof.
  apply recipe_update_ok in Hok as [r [_ [_ [_ ->]]]].
  unfold serializer_update. rewrite Hp.
  destruct (p_ingredients p); [|apply recipe_tag_ids_set_tags].
  apply recipe_tag_ids_set_tags.
Qed.

Lemma update_replaces_tags_witness :
  p_tags full_payload = Some [1] /\
  recipe_update sample_store 2 no_query 11 false full_payload =
    (Ok200, serializer_update sample_store 11 full_payload) /\
  recipe_tag_ids (serializer_update sample_store 11 full_payload) 11 = [1].
Proof.
  assert (Hok : recipe_update sample_store 2 no_query 11 false full_payload =
                (Ok200, serializer_update sample_store 11 full_payload))
    by (vm_compute; reflexivity).
  split; [reflexivity|]. split; [exact Hok|].
  exact (update_replaces_tags sample_store _ 2 no_query 11 false full_payload [1]
           eq_refl Hok).
Defined.

Lemma recipe_tag_ids_set_tags_other (db : Store) (rid rid' : nat) (ts : list nat) :
  rid' <> rid -> recipe_tag_ids (set_tags db rid ts) rid' = recipe_tag_ids db rid'.
Proof.
  intros Hne. unfold recipe_tag_ids, set_tags. cbn [recipe_tags set_recipe_tags].
  rewrite filter_app, filter_eq_after_neq by exact Hne.
  replace (filter _ (map _ ts)) with (@nil (nat * nat)); [now rewrite app_nil_r|].
  induction ts as [|t ts IH]; simpl; [reflexivity|].
  rewrite (proj2 (Nat.eqb_neq rid rid')) by congruence. exact IH.
Qed.

Lemma pairs_create_other (db : Store) (rid rid' : nat) (data : list IngredientEntry) :
  rid' <> rid ->
  recipe_ingredient_pairs (create_ingredients (clear_ingredients db rid) rid data) rid' =
  recipe_ingredient_pairs db rid'.
Proof.
  intros Hne. unfold recipe_ingredient_pairs, create_ingredients, clear_ingredients.
  cbn [ingredient_in_recipe set_ingredient_in_recipe].
  rewrite filter_app, filter_eq_after_neq by exact Hne.
  replace (filter _ (map _ data)) with (@nil IngredientInRecipe); [now rewrite app_nil_r|].
  induction data as [|e data IH]; simpl; [reflexivity|].
  rewrite (proj2 (Nat.eqb_neq rid rid')) by congruence. exact IH.
Qed.

Lemma find_update_row_other (l : list Recipe) (rid rid' : nat) (p : RecipePayload) :
  rid' <> rid ->
  find (fun r => Nat.eqb (recipe_id r) rid') (map (update_row rid p) l) =
  find (fun r => Nat.eqb (recipe_id r) rid') l.
Proof.
  intros Hne. induction l as [|r l IH]; simpl; [reflexivity|].
  rewrite update_row_id.
  destruct (Nat.eqb (recipe_id r) rid') eqn:H1; [|exact IH].
  apply Nat.eqb_eq in H1. unfold update_row.
  rewrite (proj2 (Nat.eqb_neq (recipe_id r) rid)) by congruence. reflexivity.
Qed.

Lemma tag_ids_set_iir (db : Store) (l : list IngredientInRecipe) (rid : nat) :
  recipe_tag_ids (set_ingredient_in_recipe db l) rid = recipe_tag_ids db rid.
Proof. reflexivity. Qed.

(** An update of recipe [rid] leaves every other recipe as it was: its row,
    its tags and its ingredient rows. *)
Theorem update_frame (db db' : Store) (user : nat) (q : ListQuery)
    (rid rid' : nat) (partial : bool)
    (p : RecipePayload) (Hne : rid' <> rid)
    (Hok : recipe_update db user q rid partial p = (Ok200, db')) :
  find_recipe db' rid' = find_recipe db rid' /\
  recipe_tag_ids db' rid' = recipe_tag_ids db rid' /\
  recipe_ingredient_pairs db' rid' = recipe_ingredient_pairs db rid'.
Proof.
  apply recipe_update_ok in Hok as [r [_ [_ [_ ->]]]].
  split; [|split].
  - unfold find_recipe. rewrite serializer_update_recipes.
    apply find_update_row_other. exact Hne.
  - unfold serializer_update.
    destruct (p_tags p) as [ts|], (p_ingredients p) as [data|];
      unfold create_ingredients, clear_ingredients;
      rewrite ?tag_ids_set_iir;
      try (rewrite recipe_tag_ids_set_tags_other by exact Hne); reflexivity.
  - unfold serializer_update.
    destruct (p_tags p) as [ts|], (p_ingredients p) as [data|];
      try (rewrite pairs_create_other by exact Hne);
      reflexivity.
Qed.

Lemma update_frame_witness :
  11 <> 10 /\
  recipe_update sample_store 2 no_query 10 false full_payload =
    (Ok200, serializer_update sample_store 10 full_payload) /\
  find_recipe (serializer_update sample_store 10 full_payload) 11 =
    find_recipe sample_store 11 /\
  recipe_tag_ids (serializer_update sample_store 10 full_payload) 11 =
    recipe_tag_ids sample_store 11 /\
  recipe_ingredient_pairs (serializer_update sample_store 10 full_payload) 11 =
    recipe_ingredient_pairs sample_store 11.
Proof.
  assert (Hne : 11 <> 10) by lia.
  assert (Hok : recipe_update sample_store 2 no_query 10 false full_payload =
                (Ok200, serializer_update sample_store 10 full_payload))
    by (vm_compute; reflexivity).
  split; [exact Hne|]. split; [exact Hok|].
  exact (update_frame sample_store _ 2 no_query 10 11 false full_payload Hne Hok).
Defined.

(** A create or update that is not answered 201 or 200 writes nothing:
    400, 403, 404 and 500 leave the store as it was. *)
Theorem recipe_write_errors_change_nothing (db : Store) (user : nat)
    (q : ListQuery) (rid : nat) (partial : bool) (p : RecipePayload) :
  (forall resp db', recipe_create db user p = (resp, db') ->
     resp <> Created201 -> db' = db) /\
  (forall resp db', recipe_update db user q rid partial p = (resp, db') ->
     resp <> Ok200 -> db' = db).
Proof.
  split; intros resp db' H Hresp.
  - unfold recipe_create in H.
    destruct (run_validation db false p) as [[|e es]|];
      inversion H; subst; congruence.
  - unfold recipe_update in H.
    destruct (get_recipe_object db (Some user) q rid) as [err|r];
      [inversion H; reflexivity|].
    destruct (negb (Nat.eqb (recipe_author r) user)); [inversion H; reflexivity|].
    destruct (run_validation db partial p) as [[|e es]|];
      inversion H; subst; congruence.
Qed.

Lemma filter_eqb_true {A} (f : A -> bool) (l : list A) :
  filter (fun x => Bool.eqb (f x) true) l = filter f l.
Proof.
  induction l as [|x l IH]; simpl; [reflexivity|].
  rewrite IH. destruct (f x); reflexivity.
Qed.

Lemma filter_eqb_false {A} (f : A -> bool) (l : list A) :
  filter (fun x => Bool.eqb (f x) false) l = filter (fun x => negb (f x)) l.
Proof.
  induction l as [|x l IH]; simpl; [reflexivity|].
  rewrite IH. destruct (f x); reflexivity.
Qed.

Lemma filter_idem {A} (f : A -> bool) (l : list A) :
  filter f (filter f l) = filter f l.
Proof.
  induction l as [|x l IH]; simpl; [reflexivity|].
  destruct (f x) eqn:Hx; simpl; [rewrite Hx, IH|]; reflexivity || exact IH.
Qed.

Lemma filter_contra {A} (f : A -> bool) (l : list A) :
  filter f (filter (fun x => negb (f x)) l) = [].
Proof.
  induction l as [|x l IH]; simpl; [reflexivity|].
  destruct (f x) eqn:Hx; simpl; [exact IH|]. rewrite Hx. exact IH.
Qed.

Lemma favorited_query_list (db : Store) (u : nat) (v : string) :
  recipe_list db (Some u) (favorited_query v) =
  Some (map recipe_id
    (filter_by_relation (favorites db) (Some u) (boolean_widget (Some v))
      (filter (fun r => Bool.eqb (row_exists (favorites db) u (recipe_id r))
                                 (String.eqb v "1")) (recipes db)))).
Proof. reflexivity. Qed.

Lemma in_cart_query_list (db : Store) (u : nat) (v : string) :
  recipe_list db (Some u) (in_cart_query v) =
  Some (map recipe_id
    (filter_by_relation (shopping_cart db) (Some u) (boolean_widget (Some v))
      (filter (fun r => Bool.eqb (row_exists (shopping_cart db) u (recipe_id r))
                                 (String.eqb v "1")) (recipes db)))).
Proof. reflexivity. Qed.

(** For an authenticated user, [is_favorited=1] lists exactly the recipes
    the user has favorited and [is_in_shopping_cart=1] exactly those in
    the user's cart, in the order of the recipe table. *)
Theorem flag_one_lists_related (db : Store) (u : nat) :
  recipe_list db (Some u) (favorited_query "1") =
    Some (map recipe_id (filter (fun r => row_exists (favorites db) u (recipe_id r))
                           (recipes db))) /\
  recipe_list db (Some u) (in_cart_query "1") =
    Some (map recipe_id (filter (fun r => row_exists (shopping_cart db) u (recipe_id r))
                           (recipes db))).
Proof.
  rewrite favorited_query_list, in_cart_query_list. cbn [String.eqb boolean_widget].
  split; unfold filter_by_relation; cbn;
    rewrite filter_eqb_true, filter_idem; reflexivity.
Qed.

(** For an authenticated user, a flag value other than ["1"] that the
    filter's boolean widget does not read as true (["0"], ["false"], or an
    unknown word) lists exactly the recipes that are not favorited (for
    [is_favorited]) or not in the cart (for [is_in_shopping_cart]). *)
Theorem flag_other_lists_unrelated (db : Store) (u : nat) (v : string)
    (Hv : v <> "1"%string) (Hw : boolean_widget (Some v) <> Some true) :
  recipe_list db (Some u) (favorited_query v) =
    Some (map recipe_id (filter (fun r => negb (row_exists (favorites db) u (recipe_id r)))
                           (recipes db))) /\
  recipe_list db (Some u) (in_cart_query v) =
    Some (map recipe_id (filter (fun r => negb (row_exists (shopping_cart db) u (recipe_id r)))
                           (recipes db))).
Proof.
  rewrite favorited_query_list, in_cart_query_list.
  apply String.eqb_neq in Hv. rewrite Hv, !filter_eqb_false.
  unfold filter_by_relation.
  destruct (boolean_widget (Some v)) as [[|]|]; [congruence| |]; split; reflexivity.
Qed.

Lemma flag_other_lists_unrelated_witness :
  "0"%string <> "1"%string /\ boolean_widget (Some "0"%string) <> Some true /\
  recipe_list sample_store (Some 1) (in_cart_query "0") =
    Some (map recipe_id (filter (fun r => negb (row_exists (shopping_cart sample_store) 1 (recipe_id r)))
                           (recipes sample_store))) /\
  recipe_list sample_store (Some 1) (in_cart_query "0") = Some [].
Proof.
  assert (Hv : "0"%string <> "1"%string) by discriminate.
  assert (Hw : boolean_widget (Some "0"%string) <> Some true) by discriminate.
  split; [exact Hv|]. split; [exact Hw|]. split.
  - exact (proj2 (flag_other_lists_unrelated sample_store 1 "0" Hv Hw)).
  - vm_compute. reflexivity.
Defined.

(** For an authenticated user, a flag value that the boolean widget reads
    as true but that is not ["1"] (e.g. ["true"]) lists nothing: the view
    keeps the unrelated recipes and the filter then keeps only related
    ones. *)
Theorem flag_true_word_lists_nothing (db : Store) (u : nat) (v : string)
    (Hv : v <> "1"%string) (Hw : boolean_widget (Some v) = Some true) :
  recipe_list db (Some u) (favorited_query v) = Some [] /\
  recipe_list db (Some u) (in_cart_query v) = Some [].
Proof.
  rewrite favorited_query_list, in_cart_query_list.
  apply String.eqb_neq in Hv. rewrite Hv, !filter_eqb_false, Hw.
  unfold filter_by_relation. rewrite !filter_contra. split; reflexivity.
Qed.

Lemma flag_true_word_lists_nothing_witness :
  "true"%string <> "1"%string /\ boolean_widget (Some "true"%string) = Some true /\
  recipe_list sample_store (Some 1) (in_cart_query "true") = Some [] /\
  recipe_list sample_store (Some 1) (in_cart_query "1") = Some [10; 11].
Proof.
  assert (Hv : "true"%string <> "1"%string) by discriminate.
  assert (Hw : boolean_widget (Some "true"%string) = Some true) by reflexivity.
  split; [exact Hv|]. split; [exact Hw|]. split.
  - exact (proj2 (flag_true_word_lists_nothing sample_store 1 "true" Hv Hw)).
  - vm_compute. reflexivity.
Defined.

(** With a non-negative [recipes_limit] n, the [recipes] field of a
    subscription lists the first n recipes of the author (all of them when
    the author has fewer), and only recipes of that author. *)
Theorem get_recipes_limit (db : Store) (a : nat) (n : Z) (Hn : (0 <= n)%Z) :
  exists l, get_recipes db a (LimitInt n) = Some l /\
    l = firstn (Z.to_nat n) (author_recipes db a) /\
    List.length l = Nat.min (Z.to_nat n) (List.length (author_recipes db a)) /\
    (exists rest, author_recipes db a = l ++ rest) /\
    Forall (fun r => recipe_author r = a) l.
Proof.
  exists (firstn (Z.to_nat n) (author_recipes db a)).
  unfold get_recipes. rewrite (proj2 (Z.ltb_ge n 0) Hn).
  split; [reflexivity|]. split; [reflexivity|]. split; [apply length_firstn|].
  split; [exists (skipn (Z.to_nat n) (author_recipes db a)); symmetry; apply firstn_skipn|].
  apply Forall_forall. intros r Hr.
  assert (Hin : In r (author_recipes db a)).
  { rewrite <- (firstn_skipn (Z.to_nat n) (author_recipes db a)).
    apply in_or_app. left. exact Hr. }
  clear Hr. rename Hin into Hr. unfold author_recipes in Hr. apply filter_In in Hr as [_ Hr].
  apply Nat.eqb_eq. exact Hr.
Qed.

Lemma get_recipes_limit_witness :
  (0 <= 1)%Z /\ get_recipes sample_store 2 (LimitInt 1) =
    Some [mkRecipe 10 2 "Pancakes" "Mix and fry." 15] /\
  exists l, get_recipes sample_store 2 (LimitInt 1) = Some l /\
    l = firstn 1 (author_recipes sample_store 2) /\
    List.length l = Nat.min 1 (List.length (author_recipes sample_store 2)) /\
    (exists rest, author_recipes sample_store 2 = l ++ rest) /\
    Forall (fun r => recipe_author r = 2) l.
Proof.
  assert (Hn : (0 <= 1)%Z) by lia.
  split; [exact Hn|]. split; [reflexivity|].
  exact (get_recipes_limit sample_store 2 1 Hn).
Defined.

Lemma lower_ascii_idem (c : ascii) : lower_ascii (lower_ascii c) = lower_ascii c.
Proof. destruct c as [[] [] [] [] [] [] [] []]; reflexivity. Qed.

Lemma lower_idem (s : string) : lower (lower s) = lower s.
Proof.
  induction s as [|c s IH]; simpl; [reflexivity|]. rewrite lower_ascii_idem, IH.
  reflexivity.
Qed.

Lemma lower_empty (s : string) : String.eqb (lower s) EmptyString = String.eqb s EmptyString.
Proof. destruct s; reflexivity. Qed.

Lemma is_prefix_refl (s : string) : is_prefix s s = true.
Proof.
  induction s as [|c s IH]; simpl; [reflexivity|].
  rewrite Ascii.eqb_refl, IH. reflexivity.
Qed.

Lemma contains_refl (s : string) : contains s s = true.
Proof. destruct s as [|c s]; simpl; [reflexivity|]. now rewrite Ascii.eqb_refl, is_prefix_refl. Qed.

(** The ingredient search ignores the case of ASCII letters: searching for
    [name] and for its lower-case form gives the same list. *)
Theorem ingredient_search_case_insensitive (db : Store) (name : string) :
  ingredient_search db (Some name) = ingredient_search db (Some (lower name)).
Proof.
  unfold ingredient_search. rewrite lower_empty.
  destruct (String.eqb name EmptyString); [reflexivity|].
  unfold icontains. rewrite lower_idem. reflexivity.
Qed.

(** Every ingredient is found when searching for its own name; an absent
    or empty [name] lists every ingredient. *)
Theorem ingredient_search_finds_own_name (db : Store) (g : Ingredient)
    (Hg : In g (ingredients db)) :
  In g (ingredient_search db (Some (ingredient_name g))) /\
  ingredient_search db None = ingredients db /\
  ingredient_search db (Some EmptyString) = ingredients db.
Proof.
  split; [|split; reflexivity].
  unfold ingredient_search.
  destruct (String.eqb (ingredient_name g) EmptyString); [exact Hg|].
  apply filter_In. split; [exact Hg|]. apply contains_refl.
Qed.

Lemma ingredient_search_finds_own_name_witness :
  In flour (ingredients sample_store) /\
  In flour (ingredient_search sample_store (Some (ingredient_name flour))) /\
  ingredient_search sample_store None = ingredients sample_store /\
  ingredient_search sample_store (Some EmptyString) = ingredients sample_store.
Proof.
  assert (Hg : In flour (ingredients sample_store)) by (simpl; auto).
  split; [exact Hg|]. exact (ingredient_search_finds_own_name sample_store flour Hg).
Defined.

Lemma same_pair_new (n u : string) (i : nat) :
  same_pair n u (mkIngredient i n u) = true.
Proof. unfold same_pair. simpl. now rewrite !String.eqb_refl. Qed.

Lemma get_or_create_self (gs gs' : list Ingredient) (n u : string) :
  get_or_create gs n u = Some gs' -> pair_ingredients gs' n u = 1.
Proof.
  unfold get_or_create, pair_ingredients.
  destruct (filter (same_pair n u) gs) as [|x [|y l]] eqn:Hf; intros H;
    inversion H; subst gs'; clear H.
  - rewrite filter_app, Hf. simpl. rewrite same_pair_new. reflexivity.
  - rewrite Hf. reflexivity.
Qed.

Lemma get_or_create_other (gs gs' : list Ingredient) (n u n' u' : string) :
  get_or_create gs n' u' = Some gs' -> ~ (n = n' /\ u = u') ->
  pair_ingredients gs' n u = pair_ingredients gs n u.
Proof.
  unfold get_or_create, pair_ingredients. intros H Hne.
  destruct (filter (same_pair n' u') gs) as [|x [|y l]];
    inversion H; subst gs'; clear H; [|reflexivity].
  assert (Hf : same_pair n u (mkIngredient (next_ingredient_id gs) n' u') = false).
  { unfold same_pair. simpl.
    destruct (String.eqb n' n) eqn:H1, (String.eqb u' u) eqn:H2; try reflexivity.
    apply String.eqb_eq in H1, H2. exfalso. apply Hne. split; congruence. }
  rewrite filter_app, length_app. simpl. rewrite Hf. simpl. lia.
Qed.

Lemma get_or_create_extends (gs gs' : list Ingredient) (n u : string) :
  get_or_create gs n u = Some gs' -> exists ext, gs' = gs ++ ext.
Proof.
  unfold get_or_create.
  destruct (filter (same_pair n u) gs) as [|x [|y l]]; intros H;
    inversion H; subst gs'; clear H.
  - eexists. reflexivity.
  - exists []. symmetry. apply app_nil_r.
Qed.

Lemma get_or_create_keeps_one (gs gs' : list Ingredient) (n u n' u' : string) :
  pair_ingredients gs n u = 1 -> get_or_create gs n' u' = Some gs' ->
  pair_ingredients gs' n u = 1.
Proof.
  intros H1 H2.
  destruct (String.eqb n n') eqn:E1, (String.eqb u u') eqn:E2;
    try (rewrite (get_or_create_other gs gs' n u n' u' H2); [exact H1|];
         intros [Ha Hb]; subst; rewrite String.eqb_refl in *; discriminate).
  apply String.eqb_eq in E1, E2. subst. exact (get_or_create_self _ _ _ _ H2).
Qed.

Lemma get_or_create_one (gs : list Ingredient) (n u : string) :
  pair_ingredients gs n u = 1 -> get_or_create gs n u = Some gs.
Proof.
  unfold pair_ingredients, get_or_create.
  destruct (filter (same_pair n u) gs) as [|x [|y l]]; simpl; intros H;
    [discriminate|reflexivity|discriminate].
Qed.

Lemma load_rows_keeps_one (gs gs' : list Ingredient) (rows : list (list string))
    (n u : string) :
  load_rows gs rows = (true, gs') -> pair_ingredients gs n u = 1 ->
  pair_ingredients gs' n u = 1.
Proof.
  revert gs. induction rows as [|row rows IH]; simpl; intros gs H H1.
  - inversion H. subst. exact H1.
  - destruct row as [|n' [|u' [|x r]]]; try discriminate.
    destruct (get_or_create gs n' u') as [g1|] eqn:Hg; [|discriminate].
    apply (IH g1 H). exact (get_or_create_keeps_one _ _ _ _ _ _ H1 Hg).
Qed.

Lemma load_rows_all_one (gs gs' : list Ingredient) (rows : list (list string)) :
  load_rows gs rows = (true, gs') ->
  Forall (fun row => exists n u, row = [n; u] /\ pair_ingredients gs' n u = 1) rows.
Proof.
  revert gs. induction rows as [|row rows IH]; simpl; intros gs H; [constructor|].
  destruct row as [|n [|u [|x r]]]; try discriminate.
  destruct (get_or_create gs n u) as [g1|] eqn:Hg; [|discriminate].
  constructor; [|exact (IH g1 H)].
  exists n, u. split; [reflexivity|].
  apply (load_rows_keeps_one g1 gs' rows); [exact H|].
  exact (get_or_create_self _ _ _ _ Hg).
Qed.

Lemma load_rows_extends (gs gs' : list Ingredient) (rows : list (list string)) :
  load_rows gs rows = (true, gs') -> exists ext, gs' = gs ++ ext.
Proof.
  revert gs. induction rows as [|row rows IH]; simpl; intros gs H.
  - inversion H. exists []. symmetry. apply app_nil_r.
  - destruct row as [|n [|u [|x r]]]; try discriminate.
    destruct (get_or_create gs n u) as [g1|] eqn:Hg; [|discriminate].
    destruct (get_or_create_extends _ _ _ _ Hg) as [e1 ->].
    destruct (IH _ H) as [e2 ->]. exists (e1 ++ e2). symmetry. apply app_assoc.
Qed.

Lemma load_rows_other (gs gs' : list Ingredient) (rows : list (list string))
    (n u : string) :
  load_rows gs rows = (true, gs') -> ~ In [n; u] rows ->
  pair_ingredients gs' n u = pair_ingredients gs n u.
Proof.
  revert gs. induction rows as [|row rows IH]; simpl; intros gs H Hn.
  - inversion H. reflexivity.
  - destruct row as [|n' [|u' [|x r]]]; try discriminate.
    destruct (get_or_create gs n' u') as [g1|] eqn:Hg; [|discriminate].
    rewrite (IH g1 H) by tauto.
    apply (get_or_create_other _ _ _ _ _ _ Hg).
    intros [-> ->]. apply Hn. now left.
Qed.

Lemma load_rows_loaded (gs : list Ingredient) (rows : list (list string)) :
  Forall (fun row => exists n u, row = [n; u] /\ pair_ingredients gs n u = 1) rows ->
  load_rows gs rows = (true, gs).
Proof.
  induction 1 as [|row rows [n [u [-> H1]]] _ IH]; simpl; [reflexivity|].
  rewrite (get_or_create_one _ _ _ H1). exact IH.
Qed.

Lemma load_rows_app (gs gs1 : list Ingredient) (rows1 rows2 : list (list string)) :
  load_rows gs rows1 = (true, gs1) ->
  load_rows gs (rows1 ++ rows2) = load_rows gs1 rows2.
Proof.
  revert gs. induction rows1 as [|row rows IH]; simpl; intros gs H.
  - inversion H. reflexivity.
  - destruct row as [|n [|u [|x r]]]; try discriminate.
    destruct (get_or_create gs n u) as [g1|]; [|discriminate].
    exact (IH g1 H).
Qed.

Lemma load_ingredients_success (db db' : Store) (rows : list (list string)) :
  load_ingredients db (Some rows) = (CommandSuccess, db') ->
  load_rows (ingredients db) rows = (true, ingredients db') /\
  db' = set_ingredients db (ingredients db').
Proof.
  unfold load_ingredients.
  destruct (load_rows (ingredients db) rows) as [[|] gs]; intros H;
    inversion H; subst db'; split; reflexivity.
Qed.

(** A successful [load_ingredients] only adds ingredients: the old rows
    stay in place, every (name, measurement_unit) pair of the file then has
    exactly one ingredient, the count of every other pair is unchanged, and
    no other table is touched. *)
Theorem load_ingredients_success_state (db db' : Store) (rows : list (list string))
    (H : load_ingredients db (Some rows) = (CommandSuccess, db')) :
  (exists ext, ingredients db' = ingredients db ++ ext) /\
  (forall n u, In [n; u] rows -> pair_ingredients (ingredients db') n u = 1) /\
  (forall n u, ~ In [n; u] rows ->
     pair_ingredients (ingredients db') n u = pair_ingredients (ingredients db) n u) /\
  db' = set_ingredients db (ingredients db').
Proof.
  destruct (load_ingredients_success _ _ _ H) as [Hl Hdb].
  split; [exact (load_rows_extends _ _ _ Hl)|].
  split; [|split; [exact (fun n u => load_rows_other _ _ _ n u Hl)|exact Hdb]].
  intros n u Hin. pose proof (load_rows_all_one _ _ _ Hl) as Hall.
  rewrite Forall_forall in Hall. destruct (Hall _ Hin) as [n' [u' [Heq H1]]].
  inversion Heq. subst. exact H1.
Qed.

Lemma load_ingredients_success_state_witness :
  load_ingredients sample_store (Some sample_rows) =
    (CommandSuccess, set_ingredients sample_store
       (ingredients sample_store ++
        [mkIngredient 3 "salt" "g"; mkIngredient 4 "milk" "ml"])) /\
  (exists ext, ingredients (set_ingredients sample_store
       (ingredients sample_store ++
        [mkIngredient 3 "salt" "g"; mkIngredient 4 "milk" "ml"])) =
     ingredients sample_store ++ ext) /\
  (forall n u, In [n; u] sample_rows ->
     pair_ingredients (ingredients (set_ingredients sample_store
       (ingredients sample_store ++
        [mkIngredient 3 "salt" "g"; mkIngredient 4 "milk" "ml"]))) n u = 1) /\
  (forall n u, ~ In [n; u] sample_rows ->
     pair_ingredients (ingredients (set_ingredients sample_store
       (ingredients sample_store ++
        [mkIngredient 3 "salt" "g"; mkIngredient 4 "milk" "ml"]))) n u =
     pair_ingredients (ingredients sample_store) n u) /\
  set_ingredients sample_store
       (ingredients sample_store ++
        [mkIngredient 3 "salt" "g"; mkIngredient 4 "milk" "ml"]) =
  set_ingredients sample_store (ingredients (set_ingredients sample_store
       (ingredients sample_store ++
        [mkIngredient 3 "salt" "g"; mkIngredient 4 "milk" "ml"]))).
Proof.
  assert (H : load_ingredients sample_store (Some sample_rows) =
    (CommandSuccess, set_ingredients sample_store
       (ingredients sample_store ++
        [mkIngredient 3 "salt" "g"; mkIngredient 4 "milk" "ml"])))
    by (vm_compute; reflexivity).
  split; [exact H|]. exact (load_ingredients_success_state _ _ _ H).
Defined.

(** Running [load_ingredients] again on the file it has just loaded
    succeeds and changes nothing. *)
Theorem load_ingredients_idempotent (db db' : Store) (rows : list (list string))
    (H : load_ingredients db (Some rows) = (CommandSuccess, db')) :
  load_ingredients db' (Some rows) = (CommandSuccess, db').
Proof.
  destruct (load_ingredients_success _ _ _ H) as [Hl Hdb].
  unfold load_ingredients.
  rewrite (load_rows_loaded _ _ (load_rows_all_one _ _ _ Hl)).
  rewrite Hdb at 2. rewrite Hdb. reflexivity.
Qed.

Lemma load_ingredients_idempotent_witness :
  load_ingredients sample_store (Some sample_rows) =
    (CommandSuccess, set_ingredients sample_store
       (ingredients sample_store ++
        [mkIngredient 3 "salt" "g"; mkIngredient 4 "milk" "ml"])) /\
  load_ingredients (set_ingredients sample_store
       (ingredients sample_store ++
        [mkIngredient 3 "salt" "g"; mkIngredient 4 "milk" "ml"])) (Some sample_rows) =
    (CommandSuccess, set_ingredients sample_store
       (ingredients sample_store ++
        [mkIngredient 3 "salt" "g"; mkIngredient 4 "milk" "ml"])).
Proof.
  assert (H : load_ingredients sample_store (Some sample_rows) =
    (CommandSuccess, set_ingredients sample_store
       (ingredients sample_store ++
        [mkIngredient 3 "salt" "g"; mkIngredient 4 "milk" "ml"])))
    by (vm_compute; reflexivity).
  split; [exact H|]. exact (load_ingredients_idempotent _ _ _ H).
Defined.

(** The command is not atomic: when a row that is not a pair of cells
    follows rows that loaded, the command fails and the ingredients those
    rows created stay in the store. *)
Theorem load_ingredients_partial_on_bad_row (db : Store) (gs1 : list Ingredient)
    (rows1 rows2 : list (list string)) (bad : list string)
    (H1 : load_rows (ingredients db) rows1 = (true, gs1))
    (Hbad : List.length bad <> 2) :
  load_ingredients db (Some (rows1 ++ bad :: rows2)) =
    (CommandCrashed, set_ingredients db gs1).
Proof.
  unfold load_ingredients. rewrite (load_rows_app _ _ _ _ H1).
  destruct bad as [|a [|b [|c r]]]; simpl in *; try reflexivity.
  exfalso. exact (Hbad eq_refl).
Qed.

Lemma load_ingredients_partial_on_bad_row_witness :
  load_rows (ingredients sample_store) [["salt"; "g"]]%string =
    (true, ingredients sample_store ++ [mkIngredient 3 "salt" "g"]) /\
  List.length ["milk"]%string <> 2 /\
  load_ingredients sample_store (Some ([["salt"; "g"]%string] ++ ["milk"%string] :: sample_rows)) =
    (CommandCrashed, set_ingredients sample_store
       (ingredients sample_store ++ [mkIngredient 3 "salt" "g"])).
Proof.
  assert (H1 : load_rows (ingredients sample_store) [["salt"; "g"]]%string =
    (true, ingredients sample_store ++ [mkIngredient 3 "salt" "g"]))
    by (vm_compute; reflexivity).
  assert (Hbad : List.length ["milk"]%string <> 2) by discriminate.
  split; [exact H1|]. split; [exact Hbad|].
  exact (load_ingredients_partial_on_bad_row sample_store _ _ sample_rows _ H1 Hbad).
Defined.

Lemma recipe_write_errors_change_nothing_witness :
  recipe_update sample_store 1 no_query 10 false full_payload =
    (Forbidden403, sample_store) /\
  sample_store = sample_store.
Proof.
  assert (H : recipe_update sample_store 1 no_query 10 false full_payload =
              (Forbidden403, sample_store)) by (vm_compute; reflexivity).
  split; [exact H|].
  exact (proj2 (recipe_write_errors_change_nothing sample_store 1 no_query 10 false
                  full_payload) _ _ H ltac:(discriminate)).
Defined.

Lemma favorited_query_filtered (db : Store) (u : nat) (v : string) :
  filtered_recipes db (Some u) (favorited_query v) =
  Some (filter_by_relation (favorites db) (Some u) (boolean_widget (Some v))
    (filter (fun r => Bool.eqb (row_exists (favorites db) u (recipe_id r))
                               (String.eqb v "1")) (recipes db))).
Proof. reflexivity. Qed.

Lemma in_cart_query_filtered (db : Store) (u : nat) (v : string) :
  filtered_recipes db (Some u) (in_cart_query v) =
  Some (filter_by_relation (shopping_cart db) (Some u) (boolean_widget (Some v))
    (filter (fun r => Bool.eqb (row_exists (shopping_cart db) u (recipe_id r))
                               (String.eqb v "1")) (recipes db))).
Proof. reflexivity. Qed.

(** Remove after an add under a flag query, once the add is known to have
    found the recipe ([Hg]) with its row absent ([Hrow]): the row now
    present moves the recipe out of the queryset of the same query (an
    add under [v = "1"] would not have found it), and the remove's
    [get_object] answers 404. *)
Ltac flag_query_404 filtered Hg Hrow :=
  match goal with
  | |- context [get_recipe_object ?db' ?u ?q ?t] =>
      replace (get_recipe_object db' u q t) with (@inl Response Recipe NotFound404);
      [reflexivity|symmetry]
  end;
  unfold get_recipe_object; rewrite filtered;
  rewrite find_none_intro; [reflexivity|];
  let x := fresh "x" in
  let Hx := fresh "Hx" in
  let Hk := fresh "Hk" in
  let Hid := fresh "Hid" in
  intros x Hx; apply filter_by_relation_incl, filter_In in Hx as [_ Hk];
  destruct (Nat.eqb (recipe_id x) _) eqn:Hid; [|reflexivity];
  apply Nat.eqb_eq in Hid; rewrite Hid in Hk;
  cbn [favorites shopping_cart set_favorites set_shopping_cart] in Hk;
  rewrite row_exists_snoc in Hk; apply Bool.eqb_prop in Hk;
  let qs := fresh "qs" in
  let Hqs := fresh "Hqs" in
  let Hin := fresh "Hin" in
  let Hr := fresh "Hr" in
  let Hk' := fresh "Hk" in
  apply get_recipe_object_in in Hg as [qs [Hqs [Hin Hr]]];
  rewrite filtered in Hqs; injection Hqs as <-;
  apply filter_by_relation_incl, filter_In in Hin as [_ Hk'];
  rewrite Hr, Hrow, <- Hk in Hk'; discriminate.

(** [get_object] of the favorite and cart actions filters with the
    request's query parameters: an add made with [?is_favorited=v] (resp.
    [?is_in_shopping_cart=v]) that answers 201 is followed, with the same
    parameter, by a remove that answers 404 and writes nothing. *)
Theorem flag_query_add_then_remove_404 (db : Store) (u t : nat) (v : string) :
  (fst (add_to_favorite db u (favorited_query v) t) = Created201 ->
   remove_from_favorite (snd (add_to_favorite db u (favorited_query v) t))
     u (favorited_query v) t =
   (NotFound404, snd (add_to_favorite db u (favorited_query v) t))) /\
  (fst (add_to_shopping_cart db u (in_cart_query v) t) = Created201 ->
   remove_from_shopping_cart (snd (add_to_shopping_cart db u (in_cart_query v) t))
     u (in_cart_query v) t =
   (NotFound404, snd (add_to_shopping_cart db u (in_cart_query v) t))).
Proof.
  split; intros Hadd.
  - unfold add_to_favorite, remove_from_favorite in *.
    destruct (get_recipe_object db (Some u) (favorited_query v) t)
      as [err|r] eqn:Hg.
    { destruct (get_recipe_object_error _ _ _ _ _ Hg) as [-> | ->];
        discriminate. }
    destruct (row_exists (favorites db) u t) eqn:Hrow; [discriminate|].
    cbn [snd]. flag_query_404 favorited_query_filtered Hg Hrow.
  - unfold add_to_shopping_cart, remove_from_shopping_cart in *.
    destruct (get_recipe_object db (Some u) (in_cart_query v) t)
      as [err|r] eqn:Hg.
    { destruct (get_recipe_object_error _ _ _ _ _ Hg) as [-> | ->];
        discriminate. }
    destruct (row_exists (shopping_cart db) u t) eqn:Hrow; [discriminate|].
    cbn [snd]. flag_query_404 in_cart_query_filtered Hg Hrow.
Qed.

Lemma flag_query_add_then_remove_404_witness :
  fst (add_to_favorite sample_store 1 (favorited_query "0") 11) = Created201 /\
  remove_from_favorite (snd (add_to_favorite sample_store 1 (favorited_query "0") 11))
    1 (favorited_query "0") 11 =
  (NotFound404, snd (add_to_favorite sample_store 1 (favorited_query "0") 11)).
Proof.
  assert (H : fst (add_to_favorite sample_store 1 (favorited_query "0") 11)
              = Created201) by (vm_compute; reflexivity).
  split; [exact H|].
  exact (proj1 (flag_query_add_then_remove_404 sample_store 1 11 "0") H).
Defined.

(** A payload whose image field raises (a [data:image] string that is not
    one [;base64,] split, is not ASCII, or is not valid base64) makes the
    create, and the update of a recipe that [get_object] finds by its
    author, answer 500, writing nothing. *)
Theorem image_raise_is_server_error (db : Store) (user : nat) (q : ListQuery)
    (rid : nat) (partial : bool) (p : RecipePayload)
    (Himg : image_raises p = true) :
  recipe_create db user p = (ServerError500, db) /\
  (forall r, get_recipe_object db (Some user) q rid = inr r ->
     recipe_author r = user ->
     recipe_update db user q rid partial p = (ServerError500, db)).
Proof.
  split.
  - unfold recipe_create. rewrite (run_validation_raise db false p Himg).
    reflexivity.
  - intros r Hr Ha. unfold recipe_update. rewrite Hr, Ha, Nat.eqb_refl.
    cbn [negb]. rewrite (run_validation_raise db partial p Himg). reflexivity.
Qed.

Lemma image_raise_is_server_error_witness :
  image_raises (duplicate_payload bad_padding_image) = true /\
  recipe_update sample_store 2 no_query 10 true
    (duplicate_payload bad_padding_image) = (ServerError500, sample_store).
Proof.
  assert (Himg : image_raises (duplicate_payload bad_padding_image) = true)
    by (vm_compute; reflexivity).
  assert (Hr : get_recipe_object sample_store (Some 2) no_query 10 =
                 inr (mkRecipe 10 2 "Pancakes" "Mix and fry." 15))
    by (vm_compute; reflexivity).
  split; [exact Himg|].
  exact (proj2 (image_raise_is_server_error sample_store 2 no_query 10 true
                  _ Himg) _ Hr eq_refl).
Defined.
